(** * desdeo_problem.Problem: multiobjective problem classes

    A shallow embedding of [desdeo_problem/Problem.py] and the properties of
    its three problem classes: [ScalarMOProblem] (scalar objectives),
    [MOProblem] (scalar and vector objectives) and [ScalarDataProblem]
    (pre-computed data).

    Conventions of the embedding.
    - Python floats are rationals ([Q]); there is no NaN and no rounding.
    - A raised exception is a value of [exn]: its class and its message.
    - A method is a function of the instance; where a method could assign
      to [self] it returns the instance next to its result.
    - The NumPy operations the module calls are modelled in [Module Np],
      shapes and broadcasting included; the messages of NumPy's own
      exceptions are shortened. *)

From Stdlib Require Import String DecimalString Ascii.
From Stdlib Require Import QArith ZArith List Bool Arith Lia Lqa.
Import ListNotations.

Set Implicit Arguments.

Close Scope Q_scope.
Open Scope nat_scope.

(** ** Exceptions and results *)

Inductive exn : Type :=
| ProblemError (msg : string)
| ValueError (msg : string)
| IndexError (msg : string)
| TypeError (msg : string)
| AxisError (msg : string)
| NotImplementedError (msg : string).

Inductive result (A : Type) : Type :=
| OK (a : A)
| Raise (e : exn).

Arguments OK {A} a.
Arguments Raise {A} e.

Definition bind {A B : Type} (r : result A) (k : A -> result B) : result B :=
  match r with
  | OK a => k a
  | Raise e => Raise e
  end.

Notation "x <- r ;; k" := (bind r (fun x => k))
  (at level 61, r at next level, right associativity).

Definition is_OK {A : Type} (r : result A) : bool :=
  match r with OK _ => true | Raise _ => false end.

(** [str(n)] for a non-negative [int], as [str.format] prints it. *)
Definition str (n : nat) : string := NilZero.string_of_uint (Nat.to_uint n).

(** [x < y] on floats. *)
Definition Qltb (x y : Q) : bool := negb (Qle_bool y x).

(** ** The NumPy operations used by the module *)

Module Np.

(** A 2-D array: its second dimension and its rows.  The first dimension
    is the number of rows; [n_cols] is kept because an array of shape
    [(0, k)] has no row to read [k] from. *)
Record array2 (A : Type) : Type := Array2 { n_cols : nat; rows : list (list A) }.

Definition n_rows {A} (a : array2 A) : nat := length (rows a).

Definition rectangular {A} (a : array2 A) : Prop :=
  Forall (fun r => length r = n_cols a) (rows a).

Definition rectangularb {A} (a : array2 A) : bool :=
  forallb (fun r => length r =? n_cols a) (rows a).

(** A float array of one or two dimensions. *)
Inductive ndarray : Type :=
| D1 (v : list Q)
| D2 (a : array2 Q).

(** [np.shape(a)] *)
Definition shape (a : ndarray) : list nat :=
  match a with
  | D1 v => [length v]
  | D2 a => [n_rows a; n_cols a]
  end.

(** [np.reshape(v, (1, len(v)))] on a 1-D array. *)
Definition reshape_row {A} (v : list A) : array2 A := Array2 (length v) [v].

(** Broadcasting of one dimension against another. *)
Definition broadcast_dim (n m : nat) : option nat :=
  if n =? m then Some n
  else if n =? 1 then Some m
  else if m =? 1 then Some n
  else None.

(** A list of length [n] is itself; a list of length 1 is repeated. *)
Definition stretch {A} (n : nat) (l : list A) : list A :=
  if length l =? n then l
  else match l with
       | x :: _ => repeat x n
       | [] => []
       end.

Fixpoint zip_with {A B C} (f : A -> B -> C) (l : list A) (m : list B) : list C :=
  match l, m with
  | x :: l', y :: m' => f x y :: zip_with f l' m'
  | _, _ => []
  end.

Definition broadcast_error : exn :=
  ValueError "operands could not be broadcast together".

(** An elementwise binary operation on two 2-D arrays, with NumPy's
    broadcasting: along each axis the sizes agree or one of them is 1. *)
Definition elementwise {A B C} (f : A -> B -> C)
           (a : array2 A) (b : array2 B) : result (array2 C) :=
  match broadcast_dim (n_rows a) (n_rows b), broadcast_dim (n_cols a) (n_cols b) with
  | Some r, Some c =>
      OK (Array2 c
            (zip_with (fun ra rb => zip_with f (stretch c ra) (stretch c rb))
                      (stretch r (rows a)) (stretch r (rows b))))
  | _, _ => Raise broadcast_error
  end.

(** [np.any] of a boolean 2-D array. *)
Definition any (a : array2 bool) : bool :=
  existsb (fun r => existsb (fun b => b) r) (rows a).

(** [np.ndarray((n, m), dtype=float)]: an array whose content is not
    initialised.  The cells hold [uninitialised]. *)
Definition uninitialised : Q := 0%Q.

Definition empty (n m : nat) : array2 Q :=
  Array2 m (repeat (repeat uninitialised m) n).

(** [np.array(l)] for a list of floats. *)
Definition array_of_floats (l : list Q) : ndarray := D1 l.

(** [np.array(l)] for a list of equally long tuples of floats: shape
    [(len(l), k)], and shape [(0,)] for the empty list. *)
Definition array_of_tuples (l : list (list Q)) : ndarray :=
  match l with
  | [] => D1 []
  | t :: _ => D2 (Array2 (length t) l)
  end.

Definition assign_error : exn :=
  ValueError "could not broadcast input array".

(** The value [v] broadcast to the 1-D shape [(n,)] of an assignment
    target: leading dimensions of size 1 are dropped. *)
Definition broadcast_to_1d (n : nat) (v : ndarray) : option (list Q) :=
  let v1 := match v with
            | D1 l => Some l
            | D2 a => match rows a with
                      | [r] => Some r
                      | _ => None
                      end
            end in
  match v1 with
  | Some l => if (length l =? n) || (length l =? 1) then Some (stretch n l) else None
  | None => None
  end.

(** The value [v] broadcast to the 2-D shape [(n, k)] of an assignment
    target. *)
Definition broadcast_to_2d (n k : nat) (v : ndarray) : option (list (list Q)) :=
  let a := match v with
           | D1 l => reshape_row l
           | D2 a => a
           end in
  if ((n_rows a =? n) || (n_rows a =? 1)) && ((n_cols a =? k) || (n_cols a =? 1))
  then Some (map (stretch k) (stretch n (rows a)))
  else None.

(** The row [r] with the cells from column [c] on replaced by [vals]. *)
Definition write_at (c : nat) (vals r : list Q) : list Q :=
  firstn c r ++ vals ++ skipn (c + length vals) r.

(** [a[:, c] = v] *)
Definition set_column (a : array2 Q) (c : nat) (v : ndarray) : result (array2 Q) :=
  if n_cols a <=? c then Raise (IndexError "index is out of bounds for axis 1")
  else match broadcast_to_1d (n_rows a) v with
       | Some col =>
           OK (Array2 (n_cols a) (zip_with (fun x r => write_at c [x] r) col (rows a)))
       | None => Raise assign_error
       end.

(** [a[:, c : c + k] = v]; the slice is clipped to the array's width. *)
Definition set_columns (a : array2 Q) (c k : nat) (v : ndarray) : result (array2 Q) :=
  let k' := Nat.min (c + k) (n_cols a) - c in
  match broadcast_to_2d (n_rows a) k' v with
  | Some block =>
      OK (Array2 (n_cols a) (zip_with (fun vals r => write_at c vals r) block (rows a)))
  | None => Raise assign_error
  end.

(** [a - b] with broadcasting; the result has the larger number of
    dimensions. *)
Definition subtract (a b : ndarray) : result ndarray :=
  match a, b with
  | D1 u, D1 v =>
      d <- elementwise Qminus (reshape_row u) (reshape_row v) ;;
      OK (D1 (concat (rows d)))
  | D1 u, D2 b => d <- elementwise Qminus (reshape_row u) b ;; OK (D2 d)
  | D2 a, D1 v => d <- elementwise Qminus a (reshape_row v) ;; OK (D2 d)
  | D2 a, D2 b => d <- elementwise Qminus a b ;; OK (D2 d)
  end.

(** The sum of the squares of a row.  [np.linalg.norm(a, axis=1)] is the
    square root of this sum, row by row.  The square root is strictly
    increasing on the non-negative numbers, so the norms and the squared
    norms of the rows are ordered alike, ties included, and [argmin]
    picks the same index on either; the squared norm stays within [Q]. *)
Definition squared_norm (r : list Q) : Q :=
  fold_left (fun acc x => (acc + x * x)%Q) r 0%Q.

(** [np.linalg.norm(a, axis=1)], as squared norms. *)
Definition norm_axis1 (a : ndarray) : result (list Q) :=
  match a with
  | D1 _ => Raise (AxisError "axis 1 is out of bounds for array of dimension 1")
  | D2 a => OK (map squared_norm (rows a))
  end.

(** [v.argmin()]: the index of the first occurrence of the minimum. *)
Fixpoint argmin_from (best : Q) (best_i i : nat) (l : list Q) : nat :=
  match l with
  | [] => best_i
  | x :: l' =>
      if Qltb x best then argmin_from x i (S i) l'
      else argmin_from best best_i (S i) l'
  end.

Definition argmin (v : list Q) : result nat :=
  match v with
  | [] => Raise (ValueError "attempt to get argmin of an empty sequence")
  | x :: l => OK (argmin_from x 0 1 l)
  end.

(** [np.unravel_index(j, shape, order="F")[0]]: in column-major order
    the first coordinate of the flat index [j] is [j mod shape[0]]. *)
Definition unravel_index_F_0 (j : nat) (shape : list nat) : result nat :=
  if j <? fold_left Nat.mul shape 1
  then match shape with
       | d :: _ => OK (j mod d)
       | [] => Raise (IndexError "tuple index out of range")
       end
  else Raise (ValueError "index is out of bounds for array").

(** [a[idx]]: a float of a 1-D array, a row of a 2-D array. *)
Inductive item : Type :=
| Float (x : Q)
| Row (v : list Q).

Definition getitem (a : ndarray) (idx : nat) : result item :=
  match a with
  | D1 v => match nth_error v idx with
            | Some x => OK (Float x)
            | None => Raise (IndexError "index is out of bounds for axis 0")
            end
  | D2 a => match nth_error (rows a) idx with
            | Some r => OK (Row r)
            | None => Raise (IndexError "index is out of bounds for axis 0")
            end
  end.

(** [np.maximum] and [np.minimum] of two floats. *)
Definition maximum (x y : Q) : Q := if Qltb x y then y else x.
Definition minimum (x y : Q) : Q := if Qltb y x then y else x.

(** [np.max(a, axis=0)] and [np.min(a, axis=0)] of a 2-D array: the
    rows are combined entry by entry.  Reducing no row is an error
    unless the result is empty. *)
Definition reduce_axis0 (f : Q -> Q -> Q) (what : string) (a : array2 Q)
  : result (list Q) :=
  match rows a with
  | [] => if n_cols a =? 0 then OK []
          else Raise (ValueError ("zero-size array to reduction operation "
                                    ++ what ++ " which has no identity"))
  | r :: rs => OK (fold_left (zip_with f) rs r)
  end.

Definition max_axis0 : array2 Q -> result (list Q) := reduce_axis0 maximum "maximum".
Definition min_axis0 : array2 Q -> result (list Q) := reduce_axis0 minimum "minimum".

(** [a[ind] = v] for a 1-D value [v]: row [ind] of a 2-D array is
    overwritten; [v] has the width of the array or one entry. *)
Definition set_row (a : array2 Q) (ind : nat) (v : list Q) : result (array2 Q) :=
  if n_rows a <=? ind then Raise (IndexError "index is out of bounds for axis 0")
  else if (length v =? n_cols a) || (length v =? 1)
       then OK (Array2 (n_cols a)
                       (firstn ind (rows a) ++ stretch (n_cols a) v
                               :: skipn (S ind) (rows a)))
       else Raise assign_error.

(** [np.stack((lo, hi), axis=1)] of two 1-D arrays: shape [(n, 2)]. *)
Definition stack_axis1 (lo hi : list Q) : result (array2 Q) :=
  if length lo =? length hi
  then OK (Array2 2 (zip_with (fun l h => [l; h]) lo hi))
  else Raise (ValueError "all input arrays must have the same shape").

End Np.

Import Np.

(** [len(a)]: the size of the first dimension. *)
Definition len (a : ndarray) : nat :=
  match a with
  | D1 v => length v
  | D2 a => n_rows a
  end.

(** ** The collaborators: variables, objectives, constraints

    [Variable.py], [Objective.py] and [Constraint.py] are imported by the
    module; the records below hold the attributes and methods it uses. *)

(** [Variable] (a reserved word here, hence the underscore): [name] and
    [get_bounds() -> (lower, upper)]. *)
Record Variable_ : Type := {
  var_name : string;
  get_bounds : Q * Q
}.

(** [ScalarObjective]: [name] is a string, [evaluate] maps a decision
    vector to one float. *)
Record ScalarObjective : Type := {
  so_name : string;
  so_evaluate : list Q -> Q
}.

(** [VectorObjective]: [name] is a list of strings, [evaluate] maps a
    decision vector to a tuple of floats, [n_of_objectives] is its arity. *)
Record VectorObjective : Type := {
  vo_name : list string;
  vo_n_of_objectives : nat;
  vo_evaluate : list Q -> list Q
}.

(** [Union[ScalarObjective, VectorObjective]] *)
Inductive Objective : Type :=
| Scalar (o : ScalarObjective)
| Vector (o : VectorObjective).

(** [ScalarConstraint]: [evaluate(decision_vector, objective_vector)]. *)
Record ScalarConstraint : Type := {
  sc_evaluate : list Q -> list Q -> Q
}.

(** [number_of_objectives(obj_instance)].  The [else] branch of the source
    raises [ProblemError] for an object of neither class; no value of
    [Objective] reaches it. *)
Definition number_of_objectives (obj_instance : Objective) : nat :=
  match obj_instance with
  | Scalar _ => 1
  | Vector o => vo_n_of_objectives o
  end.

(** [list(s)] for a string: its characters, each a string of length 1. *)
Fixpoint list_of_string (s : string) : list string :=
  match s with
  | EmptyString => []
  | String c s' => String c EmptyString :: list_of_string s'
  end.

(** [list(obj.name)] *)
Definition list_of_name (obj : Objective) : list string :=
  match obj with
  | Scalar o => list_of_string (so_name o)
  | Vector o => vo_name o
  end.

(** [np.array(list(map(objective.evaluate, decision_vectors)))] *)
Definition evaluated (objective : Objective) (decision_vectors : array2 Q) : ndarray :=
  match objective with
  | Scalar o => array_of_floats (map (so_evaluate o) (rows decision_vectors))
  | Vector o => array_of_tuples (map (vo_evaluate o) (rows decision_vectors))
  end.

(** What [objective.evaluate] returns for one decision vector, as a list:
    one value for a scalar objective, the tuple for a vector objective. *)
Definition outputs (objective : Objective) (x : list Q) : list Q :=
  match objective with
  | Scalar o => [so_evaluate o x]
  | Vector o => vo_evaluate o x
  end.

(** ** ProblemBase *)

Module ProblemBase.

(** The private attributes set by [ProblemBase.__init__]. *)
Record t : Type := {
  nadir : option ndarray;
  ideal : option ndarray;
  n_of_objectives : nat;
  n_of_variables : nat;
  decision_vectors : option ndarray;
  objective_vectors : option ndarray
}.

Definition init : t :=
  {| nadir := None; ideal := None; n_of_objectives := 0; n_of_variables := 0;
     decision_vectors := None; objective_vectors := None |}.

End ProblemBase.

(** The messages of the reference-vector checks, shared by both function
    problems. *)
Definition nadir_length_msg (l n : nat) : string :=
  ("The length of the nadir vector does not match the"
   ++ "number of objectives: Length nadir " ++ str l ++ ", number of "
   ++ "objectives " ++ str n ++ ".")%string.

Definition ideal_length_msg (l n : nat) : string :=
  ("The length of the ideal vector does not match the"
   ++ "number of objectives: Length ideal " ++ str l ++ ", number of "
   ++ "objectives " ++ str n ++ ".")%string.

Definition nadir_ideal_msg (l m : nat) : string :=
  ("The length of the nadir and ideal point don't match:"
   ++ " length of nadir " ++ str l ++ ", length of ideal " ++ str m ++ ".")%string.

Definition input_width_msg (n_cols n_vars : nat) : string :=
  ("The length of the input vectors does not match the number "
   ++ "of variables in the problem: Input vector length " ++ str n_cols ++ ", "
   ++ "number of variables " ++ str n_vars ++ ".")%string.

(** The first lines of both [evaluate] methods: a 1-D input becomes a
    one-row batch. *)
Definition promote (decision_vectors : ndarray) : array2 Q :=
  match decision_vectors with
  | D1 v => reshape_row v
  | D2 a => a
  end.

(** The constraint loop of both [evaluate] methods:
    [constraint_values[:, col_i] =
       np.array(list(map(constraint.evaluate, decision_vectors, objective_vectors)))]
    for [col_i, constraint] in [enumerate(constraints)]. *)
Fixpoint constraints_loop (constraints : list ScalarConstraint) (col_i : nat)
         (decision_vectors objective_vectors constraint_values : array2 Q)
  : result (array2 Q) :=
  match constraints with
  | [] => OK constraint_values
  | constraint :: rest =>
      cv <- set_column constraint_values col_i
              (array_of_floats
                 (zip_with (sc_evaluate constraint)
                           (rows decision_vectors) (rows objective_vectors))) ;;
      constraints_loop rest (S col_i) decision_vectors objective_vectors cv
  end.

(** [if constraint_values is not None: for ... in enumerate(self.constraints)] *)
Definition constraints_part (constraints : option (list ScalarConstraint))
           (decision_vectors objective_vectors : array2 Q)
           (constraint_values : option (array2 Q)) : result (option (array2 Q)) :=
  match constraint_values with
  | None => OK None
  | Some cv =>
      match constraints with
      | None => Raise (TypeError "'NoneType' object is not iterable")
      | Some cs =>
          cv' <- constraints_loop cs 0 decision_vectors objective_vectors cv ;;
          OK (Some cv')
      end
  end.

(** [if v is not None: if len(v) != n: raise ProblemError(msg)] *)
Definition check_length (v : option ndarray) (n : nat) (msg : nat -> nat -> string)
  : result unit :=
  match v with
  | Some a => if negb (len a =? n) then Raise (ProblemError (msg (len a) n)) else OK tt
  | None => OK tt
  end.

(** The loop of both [get_variable_bounds] methods:
    [bounds[ind] = np.array(var.get_bounds())] for [ind, var] in
    [enumerate(self.variables)]. *)
Fixpoint bounds_loop (variables : list Variable_) (ind : nat) (bounds : array2 Q)
  : result (array2 Q) :=
  match variables with
  | [] => OK bounds
  | var :: rest =>
      b <- set_row bounds ind [fst (get_bounds var); snd (get_bounds var)] ;;
      bounds_loop rest (S ind) b
  end.

(** ** ScalarMOProblem *)

Module ScalarMOProblem.

Record t : Type := {
  base : ProblemBase.t;
  objectives : list ScalarObjective;
  variables : list Variable_;
  constraints : option (list ScalarConstraint);
  n_of_objectives : nat;
  n_of_variables : nat;
  n_of_constraints : nat;
  nadir : option ndarray;
  ideal : option ndarray
}.

(** The properties [decision_vectors] and [objective_vectors] are those
    of [ProblemBase]. *)
Definition decision_vectors (self : t) : option ndarray :=
  ProblemBase.decision_vectors (base self).

Definition objective_vectors (self : t) : option ndarray :=
  ProblemBase.objective_vectors (base self).

(** [ScalarMOProblem.__init__] *)
Definition init (objectives : list ScalarObjective) (variables : list Variable_)
           (constraints : option (list ScalarConstraint))
           (nadir ideal : option ndarray) : result t :=
  let n_of_objectives := length objectives in
  let n_of_variables := length variables in
  let n_of_constraints :=
    match constraints with
    | Some cs => length cs
    | None => 0
    end in
  _ <- check_length nadir n_of_objectives nadir_length_msg ;;
  _ <- check_length ideal n_of_objectives ideal_length_msg ;;
  _ <- match nadir, ideal with
       | Some n, Some i =>
           if negb (len n =? len i)
           then Raise (ProblemError (nadir_ideal_msg (len n) (len i)))
           else OK tt
       | _, _ => OK tt
       end ;;
  OK {| base := ProblemBase.init;
        objectives := objectives;
        variables := variables;
        constraints := constraints;
        n_of_objectives := n_of_objectives;
        n_of_variables := n_of_variables;
        n_of_constraints := n_of_constraints;
        nadir := nadir;
        ideal := ideal |}.

(** [get_objective_names] *)
Definition get_objective_names (self : t) : list string :=
  map so_name (objectives self).

(** The objective loop of [evaluate]:
    [objective_vectors[:, col_i] = np.array(list(map(objective.evaluate, decision_vectors)))]
    for [col_i, objective] in [enumerate(self.objectives)]. *)
Fixpoint objectives_loop (objectives : list ScalarObjective) (col_i : nat)
         (decision_vectors objective_vectors : array2 Q) : result (array2 Q) :=
  match objectives with
  | [] => OK objective_vectors
  | objective :: rest =>
      ov <- set_column objective_vectors col_i
              (array_of_floats (map (so_evaluate objective) (rows decision_vectors))) ;;
      objectives_loop rest (S col_i) decision_vectors ov
  end.

(** The value returned (or the exception raised) by [evaluate]. *)
Definition evaluate_result (self : t) (decision_vectors : ndarray)
  : result (array2 Q * option (array2 Q)) :=
  let decision_vectors := promote decision_vectors in
  let n_rows := Np.n_rows decision_vectors in
  let n_cols := Np.n_cols decision_vectors in
  if negb (n_cols =? n_of_variables self)
  then Raise (ProblemError (input_width_msg n_cols (n_of_variables self)))
  else
    let objective_vectors := Np.empty n_rows (n_of_objectives self) in
    let constraint_values :=
      if 0 <? n_of_constraints self
      then Some (Np.empty n_rows (n_of_constraints self))
      else None in
    objective_vectors <-
      objectives_loop (objectives self) 0 decision_vectors objective_vectors ;;
    constraint_values <-
      constraints_part (constraints self) decision_vectors objective_vectors
                       constraint_values ;;
    OK (objective_vectors, constraint_values).

(** [evaluate]: the result and the instance after the call.  The body
    assigns to the local names [decision_vectors], [objective_vectors]
    and [constraint_values] and to no attribute of [self]. *)
Definition evaluate (self : t) (decision_vectors : ndarray)
  : result (array2 Q * option (array2 Q)) * t :=
  (evaluate_result self decision_vectors, self).

(** [evaluate_constraint_values] *)
Definition evaluate_constraint_values (self : t)
  : result (option (array2 Q)) * t :=
  (Raise (NotImplementedError "Not implemented for ScalarMOProblem"), self).

(** [get_variable_bounds]; [variables] is a list here, so the branch for
    [self.variables is None] is not taken. *)
Definition get_variable_bounds (self : t) : result (array2 Q) :=
  bounds_loop (variables self) 0 (Np.empty (n_of_variables self) 2).

(** [get_variable_names] *)
Definition get_variable_names (self : t) : list string :=
  map var_name (variables self).

(** [get_variable_lower_bounds] and [get_variable_upper_bounds] *)
Definition get_variable_lower_bounds (self : t) : list Q :=
  map (fun var => fst (get_bounds var)) (variables self).

Definition get_variable_upper_bounds (self : t) : list Q :=
  map (fun var => snd (get_bounds var)) (variables self).

End ScalarMOProblem.

(** ** MOProblem *)

Module MOProblem.

Record t : Type := {
  base : ProblemBase.t;
  objectives : list Objective;
  variables : list Variable_;
  constraints : option (list ScalarConstraint);
  n_of_variables : nat;
  n_of_objectives : nat;
  n_of_constraints : nat;
  nadir : option ndarray;
  ideal : option ndarray
}.

Definition decision_vectors (self : t) : option ndarray :=
  ProblemBase.decision_vectors (base self).

Definition objective_vectors (self : t) : option ndarray :=
  ProblemBase.objective_vectors (base self).

(** [sum(map(number_of_objectives, objectives))] *)
Definition sum_of_arities (objectives : list Objective) : nat :=
  fold_left Nat.add (map number_of_objectives objectives) 0.

(** [MOProblem.__init__] *)
Definition init (objectives : list Objective) (variables : list Variable_)
           (constraints : option (list ScalarConstraint))
           (nadir ideal : option ndarray) : result t :=
  let n_of_variables := length variables in
  let n_of_objectives := sum_of_arities objectives in
  let n_of_constraints :=
    match constraints with
    | Some cs => length cs
    | None => 0
    end in
  _ <- check_length nadir n_of_objectives nadir_length_msg ;;
  _ <- check_length ideal n_of_objectives ideal_length_msg ;;
  OK {| base := ProblemBase.init;
        objectives := objectives;
        variables := variables;
        constraints := constraints;
        n_of_variables := n_of_variables;
        n_of_objectives := n_of_objectives;
        n_of_constraints := n_of_constraints;
        nadir := nadir;
        ideal := ideal |}.

(** [get_objective_names]: [reduce(iadd, [list(obj.name) for obj in
    self.objectives], [])]. *)
Definition get_objective_names (self : t) : list string :=
  fold_left (@app string) (map list_of_name (objectives self)) [].

(** [get_variable_lower_bounds] and [get_variable_upper_bounds] *)
Definition get_variable_lower_bounds (self : t) : list Q :=
  map (fun var => fst (get_bounds var)) (variables self).

Definition get_variable_upper_bounds (self : t) : list Q :=
  map (fun var => snd (get_bounds var)) (variables self).

Definition lower_bounds_msg : string :=
  "Some decision variable values violate lower bounds".

Definition upper_bounds_msg : string :=
  "Some decision variable values violate upper bounds".

(** The objective loop of [evaluate], with its running column
    [obj_column]. *)
Fixpoint objectives_loop (objectives : list Objective) (obj_column : nat)
         (decision_vectors objective_vectors : array2 Q) : result (array2 Q) :=
  match objectives with
  | [] => OK objective_vectors
  | objective :: rest =>
      let elem_in_curr_obj := number_of_objectives objective in
      ov <- (if elem_in_curr_obj =? 1
             then set_column objective_vectors obj_column
                             (evaluated objective decision_vectors)
             else if 1 <? elem_in_curr_obj
             then set_columns objective_vectors obj_column elem_in_curr_obj
                              (evaluated objective decision_vectors)
             else OK objective_vectors) ;;
      objectives_loop rest (obj_column + elem_in_curr_obj) decision_vectors ov
  end.

(** [# Checking bounds]: the two comparisons of [evaluate], each of a
    1-D array of bounds against the batch. *)
Definition check_bounds (self : t) (decision_vectors : array2 Q) : result unit :=
  below <- elementwise (fun l x => Qltb x l)
             (reshape_row (get_variable_lower_bounds self)) decision_vectors ;;
  if Np.any below then Raise (ValueError lower_bounds_msg)
  else
    above <- elementwise (fun u x => Qltb u x)
               (reshape_row (get_variable_upper_bounds self)) decision_vectors ;;
    if Np.any above then Raise (ValueError upper_bounds_msg)
    else OK tt.

(** [evaluate] from [(n_rows, n_cols) = np.shape(decision_vectors)] to
    its [return]. *)
Definition evaluate_checked (self : t) (decision_vectors : array2 Q)
  : result (array2 Q * option (array2 Q)) :=
  let n_rows := Np.n_rows decision_vectors in
  let n_cols := Np.n_cols decision_vectors in
  if negb (n_cols =? n_of_variables self)
  then Raise (ProblemError (input_width_msg n_cols (n_of_variables self)))
  else
    let objective_vectors := Np.empty n_rows (n_of_objectives self) in
    let constraint_values :=
      if 0 <? n_of_constraints self
      then Some (Np.empty n_rows (n_of_constraints self))
      else None in
    objective_vectors <-
      objectives_loop (objectives self) 0 decision_vectors objective_vectors ;;
    constraint_values <-
      constraints_part (constraints self) decision_vectors objective_vectors
                       constraint_values ;;
    OK (objective_vectors, constraint_values).

(** The value returned (or the exception raised) by [evaluate]: the
    reshape of a 1-D input, the bounds check, the rest. *)
Definition evaluate_result (self : t) (decision_vectors : ndarray)
  : result (array2 Q * option (array2 Q)) :=
  let decision_vectors := promote decision_vectors in
  _ <- check_bounds self decision_vectors ;;
  evaluate_checked self decision_vectors.

(** [evaluate]: the result and the instance after the call; as in
    [ScalarMOProblem], the body assigns to no attribute of [self]. *)
Definition evaluate (self : t) (decision_vectors : ndarray)
  : result (array2 Q * option (array2 Q)) * t :=
  (evaluate_result self decision_vectors, self).

(** [evaluate_constraint_values] *)
Definition evaluate_constraint_values (self : t)
  : result (option (array2 Q)) * t :=
  (Raise (NotImplementedError "Not implemented for ScalarMOProblem"), self).

(** [get_variable_bounds]; [variables] is a list here, so the branch for
    [self.variables is None] is not taken. *)
Definition get_variable_bounds (self : t) : result (array2 Q) :=
  bounds_loop (variables self) 0 (Np.empty (n_of_variables self) 2).

(** [get_variable_names] *)
Definition get_variable_names (self : t) : list string :=
  map var_name (variables self).

End MOProblem.

(** ** ScalarDataProblem *)

Module ScalarDataProblem.

(** The attributes of [ProblemBase], set through its properties, and
    the three private attributes of the class. *)
Record t : Type := {
  base : ProblemBase.t;
  epsilon : Q;
  model_exists : bool;
  constraints : list ScalarConstraint
}.

Definition nadir (self : t) := ProblemBase.nadir (base self).
Definition ideal (self : t) := ProblemBase.ideal (base self).
Definition n_of_variables (self : t) := ProblemBase.n_of_variables (base self).
Definition n_of_objectives (self : t) := ProblemBase.n_of_objectives (base self).
Definition decision_vectors (self : t) := ProblemBase.decision_vectors (base self).
Definition objective_vectors (self : t) := ProblemBase.objective_vectors (base self).

(** [try: a.shape[1] except IndexError as e: raise ProblemError(msg)] *)
Definition shape_1 (a : ndarray) (msg : string) : result nat :=
  match shape a with
  | _ :: n :: _ => OK n
  | _ => Raise (ProblemError (msg ++ "Encountered 'tuple index out of range'"))
  end.

(** [np.max(a, axis=0)] and [np.min(a, axis=0)] of the objective
    matrix, whose second dimension the constructor has already read. *)
Definition reduce_objectives (reduce : array2 Q -> result (list Q)) (a : ndarray)
  : result ndarray :=
  match a with
  | D2 a => v <- reduce a ;; OK (D1 v)
  | D1 _ => Raise (AxisError "axis 0 is out of bounds")
  end.

(** [ScalarDataProblem.__init__] *)
Definition init (decision_vectors objective_vectors : ndarray) : result t :=
  n_of_variables <-
    shape_1 decision_vectors "Check the variable dimensions. Is it a 2D array? " ;;
  n_of_objectives <-
    shape_1 objective_vectors "Check the objective dimensions. Is it a 2D array? " ;;
  nadir <- reduce_objectives max_axis0 objective_vectors ;;
  ideal <- reduce_objectives min_axis0 objective_vectors ;;
  OK {| base := {| ProblemBase.nadir := Some nadir;
                   ProblemBase.ideal := Some ideal;
                   ProblemBase.n_of_objectives := n_of_objectives;
                   ProblemBase.n_of_variables := n_of_variables;
                   ProblemBase.decision_vectors := Some decision_vectors;
                   ProblemBase.objective_vectors := Some objective_vectors |};
        epsilon := (1 # 1000000)%Q;
        model_exists := false;
        constraints := [] |}.

(** The 1-tuple returned by [evaluate]. *)
Inductive tuple1 (A : Type) : Type := Tuple1 (x : A).

(** The value returned (or the exception raised) by [evaluate]. *)
Definition evaluate_result (self : t) (decision_vectors : ndarray)
  : result (tuple1 item) :=
  if negb (model_exists self) then
    match ScalarDataProblem.decision_vectors self, objective_vectors self with
    | Some stored_decisions, Some stored_objectives =>
        diff <- subtract stored_decisions decision_vectors ;;
        norms <- norm_axis1 diff ;;
        flat <- argmin norms ;;
        idx <- unravel_index_F_0 flat (shape stored_objectives) ;;
        x <- getitem stored_objectives idx ;;
        OK (Tuple1 x)
    | _, _ => Raise (TypeError "unsupported operand type: 'NoneType'")
    end
  else Raise (NotImplementedError "Models not implemented yet for data based problems.").

(** [evaluate]: the result and the instance after the call. *)
Definition evaluate (self : t) (decision_vectors : ndarray)
  : result (tuple1 item) * t :=
  (evaluate_result self decision_vectors, self).

(** [get_variable_bounds]:
    [np.stack((np.min(dv, axis=0) - epsilon, np.max(dv, axis=0) + epsilon), axis=1)].
    On a 1-D array the two reductions give floats, which [np.stack]
    cannot join along axis 1. *)
Definition get_variable_bounds (self : t) : result (array2 Q) :=
  match ScalarDataProblem.decision_vectors self with
  | Some (D2 a) =>
      lo <- min_axis0 a ;;
      hi <- max_axis0 a ;;
      stack_axis1 (map (fun x => (x - epsilon self)%Q) lo)
                  (map (fun x => (x + epsilon self)%Q) hi)
  | Some (D1 []) =>
      Raise (ValueError "zero-size array to reduction operation minimum which has no identity")
  | Some (D1 _) => Raise (AxisError "axis 1 is out of bounds for array of dimension 1")
  | None => Raise (AxisError "axis 0 is out of bounds for array of dimension 0")
  end.

End ScalarDataProblem.

(** ** Predicates of the specification *)

(** The reference vectors do not fit a problem of [n] objectives: the
    nadir has another length, or the ideal has, or both are given with
    different lengths. *)
Definition reference_vectors_mismatch (n : nat) (nadir ideal : option ndarray) : Prop :=
  (exists a, nadir = Some a /\ len a <> n)
  \/ (exists a, ideal = Some a /\ len a <> n)
  \/ (exists a b, nadir = Some a /\ ideal = Some b /\ len a <> len b).

(** The data model of an objective: a scalar objective has arity 1; a
    vector objective has an arity above 1 and its evaluator returns as
    many values as its arity. *)
Definition well_formed (objective : Objective) : Prop :=
  match objective with
  | Scalar _ => True
  | Vector o =>
      1 < vo_n_of_objectives o
      /\ forall x, length (vo_evaluate o x) = vo_n_of_objectives o
  end.

(** Some entry of the row lies strictly below the lower bound of its
    variable; strictly above the upper bound; every entry lies within
    the closed interval of its variable. *)
Definition below_lower (variables : list Variable_) (row : list Q) : Prop :=
  Exists (fun vx => (snd vx < fst (get_bounds (fst vx)))%Q) (combine variables row).

Definition above_upper (variables : list Variable_) (row : list Q) : Prop :=
  Exists (fun vx => (snd (get_bounds (fst vx)) < snd vx)%Q) (combine variables row).

Definition within_bounds (variables : list Variable_) (row : list Q) : Prop :=
  Forall (fun vx => (fst (get_bounds (fst vx)) <= snd vx)%Q
                    /\ (snd vx <= snd (get_bounds (fst vx)))%Q)
         (combine variables row).

(** A batch of the right width: a genuine 2-D array with one column per
    variable. *)
Definition correctly_sized (variables : list Variable_) (batch : array2 Q) : Prop :=
  rectangular batch /\ n_cols batch = length variables.


(** The objective vector of one decision vector: the outputs of the
    objectives, one after the other in definition order. *)
Definition objective_vector (objectives : list Objective) (x : list Q) : list Q :=
  flat_map (fun objective => outputs objective x) objectives.

(** The constraint values of a batch and its objective matrix: one row
    per decision vector, one column per constraint; [None] when the
    problem has no constraint. *)
Definition constraint_matrix (constraints : option (list ScalarConstraint))
           (decision_vectors objective_vectors : list (list Q)) : option (array2 Q) :=
  match constraints with
  | Some (c :: cs) =>
      Some (Array2 (length (c :: cs))
                   (zip_with (fun x o => map (fun con => sc_evaluate con x o) (c :: cs))
                             decision_vectors objective_vectors))
  | _ => None
  end.

(** The two exceptions of the bounds check. *)
Definition bounds_error (e : exn) : Prop :=
  e = ValueError MOProblem.lower_bounds_msg \/ e = ValueError MOProblem.upper_bounds_msg.


(** An objective has as many names as outputs: a vector objective one
    name per output, a scalar objective a name of one character. *)
Definition names_fit (objective : Objective) : Prop :=
  length (list_of_name objective) = number_of_objectives objective.

(** ** Example instances *)

Definition coordinate (j : nat) (x : list Q) : Q := nth j x 0%Q.

Definition unit_interval (name : string) : Variable_ :=
  {| var_name := name; get_bounds := (0%Q, 1%Q) |}.

Definition two_variables : list Variable_ := [unit_interval "x0"; unit_interval "x1"].

(** [f1(x) = x0 + x1] and [f3(x) = x0 - x1], scalar objectives. *)
Definition sum_objective : ScalarObjective :=
  {| so_name := "f1"; so_evaluate := fun x => (coordinate 0 x + coordinate 1 x)%Q |}.

Definition difference_objective : ScalarObjective :=
  {| so_name := "f3"; so_evaluate := fun x => (coordinate 0 x - coordinate 1 x)%Q |}.

(** A vector objective of arity 3: [(x0, x1, x0 * x1)]. *)
Definition triple_objective : VectorObjective :=
  {| vo_name := ["g1"; "g2"; "g3"]%string;
     vo_n_of_objectives := 3;
     vo_evaluate := fun x => [coordinate 0 x; coordinate 1 x;
                              (coordinate 0 x * coordinate 1 x)%Q] |}.

(** Objectives of arities 1, 3 and 1. *)
Definition mixed_objectives : list Objective :=
  [Scalar sum_objective; Vector triple_objective; Scalar difference_objective].

(** [x0 + x1 - 1 >= 0] as a constraint. *)
Definition sum_constraint : ScalarConstraint :=
  {| sc_evaluate := fun x _ => (coordinate 0 x + coordinate 1 x - 1)%Q |}.

(** The instance [MOProblem(mixed_objectives, two_variables, [sum_constraint])]. *)
Definition mixed_problem : MOProblem.t :=
  {| MOProblem.base := ProblemBase.init;
     MOProblem.objectives := mixed_objectives;
     MOProblem.variables := two_variables;
     MOProblem.constraints := Some [sum_constraint];
     MOProblem.n_of_variables := 2;
     MOProblem.n_of_objectives := 5;
     MOProblem.n_of_constraints := 1;
     MOProblem.nadir := None;
     MOProblem.ideal := None |}.

(** The batch [[0.2, 0.3], [1.0, 1.0]]; its second row lies on the upper
    bounds. *)
Definition example_batch : array2 Q :=
  Array2 2 [[(1 # 5)%Q; (3 # 10)%Q]; [1%Q; 1%Q]].

(** The instance [ScalarMOProblem([sum_objective], two_variables, None)]. *)
Definition scalar_problem : ScalarMOProblem.t :=
  {| ScalarMOProblem.base := ProblemBase.init;
     ScalarMOProblem.objectives := [sum_objective];
     ScalarMOProblem.variables := two_variables;
     ScalarMOProblem.constraints := None;
     ScalarMOProblem.n_of_objectives := 1;
     ScalarMOProblem.n_of_variables := 2;
     ScalarMOProblem.n_of_constraints := 0;
     ScalarMOProblem.nadir := None;
     ScalarMOProblem.ideal := None |}.

(** The instance [MOProblem([sum_objective], variables, None)]. *)
Definition single_objective_problem (variables : list Variable_) : MOProblem.t :=
  {| MOProblem.base := ProblemBase.init;
     MOProblem.objectives := [Scalar sum_objective];
     MOProblem.variables := variables;
     MOProblem.constraints := None;
     MOProblem.n_of_variables := length variables;
     MOProblem.n_of_objectives := 1;
     MOProblem.n_of_constraints := 0;
     MOProblem.nadir := None;
     MOProblem.ideal := None |}.

Definition three_variables : list Variable_ :=
  [unit_interval "x0"; unit_interval "x1"; unit_interval "x2"].

(** The same with [ScalarMOProblem] and three variables. *)
Definition three_variable_scalar_problem : ScalarMOProblem.t :=
  {| ScalarMOProblem.base := ProblemBase.init;
     ScalarMOProblem.objectives := [sum_objective];
     ScalarMOProblem.variables := three_variables;
     ScalarMOProblem.constraints := None;
     ScalarMOProblem.n_of_objectives := 1;
     ScalarMOProblem.n_of_variables := 3;
     ScalarMOProblem.n_of_constraints := 0;
     ScalarMOProblem.nadir := None;
     ScalarMOProblem.ideal := None |}.

(** Two batches of two columns: [[0.5, 0.5]] and [[0.5, 2.0]]. *)
Definition narrow_batch : array2 Q := Array2 2 [[(1 # 2)%Q; (1 # 2)%Q]].
Definition wide_batch : array2 Q := Array2 2 [[(1 # 2)%Q; 2%Q]].

(** Column [j] of a 2-D array. *)
Definition column (j : nat) (a : array2 Q) : list Q :=
  map (fun r => nth j r 0%Q) (rows a).

(** [m] is the maximum (the minimum) of the values [l]: one of them, and
    none is larger (smaller). *)
Definition is_maximum (m : Q) (l : list Q) : Prop :=
  In m l /\ Forall (fun x => (x <= m)%Q) l.

Definition is_minimum (m : Q) (l : list Q) : Prop :=
  In m l /\ Forall (fun x => (m <= x)%Q) l.

(** [v] holds, column by column, the extremum [P] of the array [a]. *)
Definition columnwise (P : Q -> list Q -> Prop) (v : list Q) (a : array2 Q) : Prop :=
  length v = n_cols a
  /\ forall j, j < n_cols a -> P (nth j v 0%Q) (column j a).


(** A dataset of three solutions, and one whose two stored decision
    vectors are the same while their objective vectors differ. *)
Definition data_decisions : array2 Q :=
  Array2 2 [[0%Q; 1%Q]; [2%Q; 3%Q]; [1%Q; 1%Q]].

Definition data_objectives : array2 Q :=
  Array2 2 [[5%Q; 1%Q]; [2%Q; 7%Q]; [3%Q; 3%Q]].

Definition data_problem : ScalarDataProblem.t :=
  {| ScalarDataProblem.base :=
       {| ProblemBase.nadir := Some (D1 [5%Q; 7%Q]);
          ProblemBase.ideal := Some (D1 [2%Q; 1%Q]);
          ProblemBase.n_of_objectives := 2;
          ProblemBase.n_of_variables := 2;
          ProblemBase.decision_vectors := Some (D2 data_decisions);
          ProblemBase.objective_vectors := Some (D2 data_objectives) |};
     ScalarDataProblem.epsilon := (1 # 1000000)%Q;
     ScalarDataProblem.model_exists := false;
     ScalarDataProblem.constraints := [] |}.



(** A batch outside the bounds of [two_variables]: [[2.0, 3.0]]. *)
Definition outside_batch : array2 Q := Array2 2 [[2%Q; 3%Q]].

(** The instance [MOProblem([sum_objective], two_variables, [sum_constraint])]
    and its fixed-arity twin. *)
Definition constrained_mixed_problem : MOProblem.t :=
  {| MOProblem.base := ProblemBase.init;
     MOProblem.objectives := [Scalar sum_objective];
     MOProblem.variables := two_variables;
     MOProblem.constraints := Some [sum_constraint];
     MOProblem.n_of_variables := 2;
     MOProblem.n_of_objectives := 1;
     MOProblem.n_of_constraints := 1;
     MOProblem.nadir := None;
     MOProblem.ideal := None |}.

Definition constrained_scalar_problem : ScalarMOProblem.t :=
  {| ScalarMOProblem.base := ProblemBase.init;
     ScalarMOProblem.objectives := [sum_objective];
     ScalarMOProblem.variables := two_variables;
     ScalarMOProblem.constraints := Some [sum_constraint];
     ScalarMOProblem.n_of_objectives := 1;
     ScalarMOProblem.n_of_variables := 2;
     ScalarMOProblem.n_of_constraints := 1;
     ScalarMOProblem.nadir := None;
     ScalarMOProblem.ideal := None |}.

(** The row [(lower, upper)] of a variable in the table of bounds. *)
Definition bounds_row (var : Variable_) : list Q :=
  [fst (get_bounds var); snd (get_bounds var)].

(** A vector objective and a scalar objective with a name of one
    character, in an [MOProblem]. *)
Definition short_name_objective : ScalarObjective :=
  {| so_name := "f"; so_evaluate := fun x => coordinate 0 x |}.

Definition named_problem : MOProblem.t :=
  {| MOProblem.base := ProblemBase.init;
     MOProblem.objectives := [Vector triple_objective; Scalar short_name_objective];
     MOProblem.variables := two_variables;
     MOProblem.constraints := None;
     MOProblem.n_of_variables := 2;
     MOProblem.n_of_objectives := 4;
     MOProblem.n_of_constraints := 0;
     MOProblem.nadir := None;
     MOProblem.ideal := None |}.

(** A dataset with three decision vectors and two objective vectors. *)
Definition short_objectives : array2 Q := Array2 2 [[5%Q; 1%Q]; [2%Q; 7%Q]].

Definition misaligned_problem : ScalarDataProblem.t :=
  {| ScalarDataProblem.base :=
       {| ProblemBase.nadir := Some (D1 [5%Q; 7%Q]);
          ProblemBase.ideal := Some (D1 [2%Q; 1%Q]);
          ProblemBase.n_of_objectives := 2;
          ProblemBase.n_of_variables := 2;
          ProblemBase.decision_vectors := Some (D2 data_decisions);
          ProblemBase.objective_vectors := Some (D2 short_objectives) |};
     ScalarDataProblem.epsilon := (1 # 1000000)%Q;
     ScalarDataProblem.model_exists := false;
     ScalarDataProblem.constraints := [] |}.



(** * Properties *)

Unset Implicit Arguments.

(** ** Construction of the function problems *)

Lemma check_length_OK (v : option ndarray) (n : nat) msg :
  (forall a, v = Some a -> len a = n) -> check_length v n msg = OK tt.
Proof.
  intros H. unfold check_length. destruct v as [a|]; [|reflexivity].
  rewrite (H a eq_refl), Nat.eqb_refl. reflexivity.
Qed.

Lemma check_length_Raise (v : option ndarray) (n : nat) msg a :
  v = Some a -> len a <> n ->
  check_length v n msg = Raise (ProblemError (msg (len a) n)).
Proof.
  intros -> H. unfold check_length.
  apply Nat.eqb_neq in H. rewrite H. reflexivity.
Qed.

Lemma mismatch_dec (n : nat) (nadir ideal : option ndarray) :
  {a | nadir = Some a /\ len a <> n}
  + {(forall a, nadir = Some a -> len a = n) /\ exists a, ideal = Some a /\ len a <> n}
  + {(forall a, nadir = Some a -> len a = n) /\ (forall a, ideal = Some a -> len a = n)}.
Proof.
  destruct nadir as [a|].
  - destruct (Nat.eq_dec (len a) n) as [E|E].
    + destruct ideal as [b|].
      * destruct (Nat.eq_dec (len b) n) as [E'|E'].
        -- right. split; intros ? [= <-]; assumption.
        -- left; right. split; [intros ? [= <-]; assumption | eauto].
      * right. split; [intros ? [= <-]; assumption | discriminate].
    + left; left. eauto.
  - destruct ideal as [b|].
    + destruct (Nat.eq_dec (len b) n) as [E'|E'].
      * right. split; [discriminate | intros ? [= <-]; assumption].
      * left; right. split; [discriminate | eauto].
    + right. split; discriminate.
Qed.

Lemma no_mismatch_lengths (n : nat) (nadir ideal : option ndarray) :
  (forall a, nadir = Some a -> len a = n) ->
  (forall a, ideal = Some a -> len a = n) ->
  ~ reference_vectors_mismatch n nadir ideal.
Proof.
  intros Hn Hi [(a & E & H) | [(a & E & H) | (a & b & E & E' & H)]].
  - apply H, Hn, E.
  - apply H, Hi, E.
  - apply H. rewrite (Hn a E), (Hi b E'). reflexivity.
Qed.

(** C1.  Both constructors raise [ProblemError] exactly when the
    reference vectors do not fit the number of objectives (the nadir's
    length differs from it, or the ideal's does, or the two lengths
    differ); on every other input they return an instance that stores
    the nadir and the ideal as given. *)
Theorem C1_init_fails_iff_mismatch
        (scalar_objectives : list ScalarObjective) (objectives : list Objective)
        (variables : list Variable_) (constraints : option (list ScalarConstraint))
        (nadir ideal : option ndarray) :
  let fixed := ScalarMOProblem.init scalar_objectives variables constraints nadir ideal in
  let mixed := MOProblem.init objectives variables constraints nadir ideal in
  ((exists msg, fixed = Raise (ProblemError msg))
   <-> reference_vectors_mismatch (length scalar_objectives) nadir ideal)
  /\ (is_OK fixed = false
      <-> reference_vectors_mismatch (length scalar_objectives) nadir ideal)
  /\ (~ reference_vectors_mismatch (length scalar_objectives) nadir ideal ->
      exists p, fixed = OK p
                /\ ScalarMOProblem.nadir p = nadir /\ ScalarMOProblem.ideal p = ideal
                /\ ScalarMOProblem.n_of_objectives p = length scalar_objectives)
  /\ ((exists msg, mixed = Raise (ProblemError msg))
      <-> reference_vectors_mismatch (MOProblem.sum_of_arities objectives) nadir ideal)
  /\ (is_OK mixed = false
      <-> reference_vectors_mismatch (MOProblem.sum_of_arities objectives) nadir ideal)
  /\ (~ reference_vectors_mismatch (MOProblem.sum_of_arities objectives) nadir ideal ->
      exists p, mixed = OK p
                /\ MOProblem.nadir p = nadir /\ MOProblem.ideal p = ideal
                /\ MOProblem.n_of_objectives p = MOProblem.sum_of_arities objectives).
Proof.
  cbv zeta.
  assert (Hfixed :
    let n := length scalar_objectives in
    (reference_vectors_mismatch n nadir ideal
     /\ exists msg, ScalarMOProblem.init scalar_objectives variables constraints nadir ideal
                    = Raise (ProblemError msg))
    \/ (~ reference_vectors_mismatch n nadir ideal
        /\ exists p, ScalarMOProblem.init scalar_objectives variables constraints nadir ideal
                     = OK p
                     /\ ScalarMOProblem.nadir p = nadir /\ ScalarMOProblem.ideal p = ideal
                     /\ ScalarMOProblem.n_of_objectives p = n)).
  { intros n. unfold ScalarMOProblem.init. fold n.
    destruct (mismatch_dec n nadir ideal) as [[(a & E & H) | (Hn & a & E & H)] | (Hn & Hi)].
    - left. split; [left; eauto|].
      rewrite (check_length_Raise _ _ _ _ E H). simpl. eauto.
    - left. split; [right; left; eauto|].
      rewrite (check_length_OK _ _ _ Hn), (check_length_Raise _ _ _ _ E H). simpl. eauto.
    - right. split; [apply no_mismatch_lengths; assumption|].
      rewrite (check_length_OK _ _ _ Hn), (check_length_OK _ _ _ Hi). simpl.
      destruct nadir as [a|], ideal as [b|]; simpl; eauto.
      rewrite (Hn a eq_refl), (Hi b eq_refl), Nat.eqb_refl. simpl. eauto. }
  assert (Hmixed :
    let n := MOProblem.sum_of_arities objectives in
    (reference_vectors_mismatch n nadir ideal
     /\ exists msg, MOProblem.init objectives variables constraints nadir ideal
                    = Raise (ProblemError msg))
    \/ (~ reference_vectors_mismatch n nadir ideal
        /\ exists p, MOProblem.init objectives variables constraints nadir ideal = OK p
                     /\ MOProblem.nadir p = nadir /\ MOProblem.ideal p = ideal
                     /\ MOProblem.n_of_objectives p = n)).
  { intros n. unfold MOProblem.init. fold n.
    destruct (mismatch_dec n nadir ideal) as [[(a & E & H) | (Hn & a & E & H)] | (Hn & Hi)].
    - left. split; [left; eauto|].
      rewrite (check_length_Raise _ _ _ _ E H). simpl. eauto.
    - left. split; [right; left; eauto|].
      rewrite (check_length_OK _ _ _ Hn), (check_length_Raise _ _ _ _ E H). simpl. eauto.
    - right. split; [apply no_mismatch_lengths; assumption|].
      rewrite (check_length_OK _ _ _ Hn), (check_length_OK _ _ _ Hi). simpl. eauto. }
  cbv zeta in Hfixed, Hmixed.
  repeat split.
  - intros [msg E]. destruct Hfixed as [[H _] | [_ (p & E' & _)]]; [exact H | congruence].
  - intros H. destruct Hfixed as [[_ E] | [N _]]; [exact E | contradiction].
  - intros E. destruct Hfixed as [[H _] | [_ (p & E' & _)]]; [exact H|].
    rewrite E' in E. discriminate.
  - intros H. destruct Hfixed as [[_ [msg E]] | [N _]]; [|contradiction].
    rewrite E. reflexivity.
  - intros N. destruct Hfixed as [[H _] | [_ E]]; [contradiction | exact E].
  - intros [msg E]. destruct Hmixed as [[H _] | [_ (p & E' & _)]]; [exact H | congruence].
  - intros H. destruct Hmixed as [[_ E] | [N _]]; [exact E | contradiction].
  - intros E. destruct Hmixed as [[H _] | [_ (p & E' & _)]]; [exact H|].
    rewrite E' in E. discriminate.
  - intros H. destruct Hmixed as [[_ [msg E]] | [N _]]; [|contradiction].
    rewrite E. reflexivity.
  - intros N. destruct Hmixed as [[H _] | [_ E]]; [contradiction | exact E].
Qed.

(** ** Lists, rows and the array assignments *)

Section ZipWith.
Context {A B C : Type}.

Lemma zip_with_length (f : A -> B -> C) (l : list A) (m : list B) :
  length l = length m -> length (zip_with f l m) = length l.
Proof.
  revert m. induction l as [|x l IH]; intros [|y m] H; simpl in *;
    try reflexivity; try discriminate.
  f_equal. apply IH. lia.
Qed.

Lemma zip_with_map_l {A'} (f : A -> B -> C) (g : A' -> A) (l : list A') (m : list B) :
  zip_with f (map g l) m = zip_with (fun a b => f (g a) b) l m.
Proof.
  revert m. induction l as [|x l IH]; intros [|y m]; simpl; try reflexivity.
  f_equal. apply IH.
Qed.

Lemma zip_with_ext_in (f g : A -> B -> C) (l : list A) (m : list B) :
  (forall a b, In a l -> In b m -> f a b = g a b) ->
  zip_with f l m = zip_with g l m.
Proof.
  revert m. induction l as [|x l IH]; intros [|y m] H; simpl; try reflexivity.
  f_equal.
  - apply H; left; reflexivity.
  - apply IH. intros a b Ha Hb. apply H; right; assumption.
Qed.

Lemma zip_with_repeat_l (f : A -> B -> C) (x : A) (m : list B) :
  zip_with f (repeat x (length m)) m = map (f x) m.
Proof. induction m as [|y m IH]; simpl; [reflexivity | f_equal; exact IH]. Qed.

Lemma zip_with_Forall (P : C -> Prop) (f : A -> B -> C) (l : list A) (m : list B) :
  (forall a b, In a l -> In b m -> P (f a b)) -> Forall P (zip_with f l m).
Proof.
  revert m. induction l as [|x l IH]; intros [|y m] H; simpl; try constructor.
  - apply H; left; reflexivity.
  - apply IH. intros a b Ha Hb. apply H; right; assumption.
Qed.


End ZipWith.

Lemma zip_with_nested {A B} (f g : A -> B -> B) (l : list A) (m : list B) :
  zip_with f l (zip_with g l m) = zip_with (fun a b => f a (g a b)) l m.
Proof.
  revert m. induction l as [|x l IH]; intros [|y m]; simpl; try reflexivity.
  f_equal. apply IH.
Qed.

Lemma zip_with_snd {A B} (l : list A) (m : list B) :
  length l = length m -> zip_with (fun _ b => b) l m = m.
Proof.
  revert m. induction l as [|x l IH]; intros [|y m] H; simpl in *;
    try reflexivity; try discriminate.
  f_equal. apply IH. lia.
Qed.

Lemma zip_with_fst {A B C} (f : A -> C) (l : list A) (m : list B) :
  length l = length m -> zip_with (fun a _ => f a) l m = map f l.
Proof.
  revert m. induction l as [|x l IH]; intros [|y m] H; simpl in *;
    try reflexivity; try discriminate.
  f_equal. apply IH. lia.
Qed.

Lemma stretch_same {A} (n : nat) (l : list A) : length l = n -> stretch n l = l.
Proof. intros H. unfold stretch. apply Nat.eqb_eq in H. rewrite H. reflexivity. Qed.

Lemma map_stretch_same {A} (k : nat) (l : list (list A)) :
  Forall (fun r => length r = k) l -> map (stretch k) l = l.
Proof.
  induction 1 as [|r l Hr _ IH]; simpl; [reflexivity|].
  rewrite (stretch_same _ _ Hr), IH. reflexivity.
Qed.

Lemma write_at_nil (c : nat) (r : list Q) : write_at c [] r = r.
Proof.
  unfold write_at. simpl. rewrite Nat.add_0_r. apply firstn_skipn.
Qed.

Lemma write_at_length (c : nat) (vals r : list Q) :
  c + length vals <= length r -> length (write_at c vals r) = length r.
Proof.
  intros H. unfold write_at.
  rewrite !length_app, length_firstn, length_skipn. lia.
Qed.

Lemma write_at_app (c : nat) (v1 v2 r : list Q) :
  c + length v1 + length v2 <= length r ->
  write_at (c + length v1) v2 (write_at c v1 r) = write_at c (v1 ++ v2) r.
Proof.
  intros H. unfold write_at.
  set (P := firstn c r ++ v1).
  set (S := skipn (c + length v1) r).
  assert (HP : length P = c + length v1).
  { unfold P. rewrite length_app, length_firstn. lia. }
  replace (firstn c r ++ v1 ++ S) with (P ++ S)
    by (unfold P; symmetry; apply app_assoc).
  assert (E1 : firstn (c + length v1) (P ++ S) = P).
  { rewrite <- HP, firstn_app, firstn_all, Nat.sub_diag. simpl. apply app_nil_r. }
  assert (E2 : skipn (c + length v1 + length v2) (P ++ S)
               = skipn (c + length (v1 ++ v2)) r).
  { rewrite skipn_app, skipn_all2 by lia. simpl.
    unfold S. rewrite skipn_skipn, length_app. f_equal. lia. }
  rewrite E1, E2. unfold P. rewrite <- !app_assoc. reflexivity.
Qed.

Lemma write_at_whole (vals r : list Q) :
  length vals = length r -> write_at 0 vals r = vals.
Proof.
  intros H. unfold write_at. simpl. rewrite H, skipn_all. apply app_nil_r.
Qed.

(** [a[:, c] = np.array(col)] for a column of the right length. *)
Lemma set_column_floats (W : nat) (rs : list (list Q)) (c : nat) (col : list Q) :
  c < W -> length col = length rs ->
  set_column (Array2 W rs) c (array_of_floats col)
  = OK (Array2 W (zip_with (fun x r => write_at c [x] r) col rs)).
Proof.
  intros Hc Hl. unfold set_column, array_of_floats, broadcast_to_1d, n_rows. simpl.
  apply Nat.leb_gt in Hc. rewrite Hc.
  rewrite Hl, Nat.eqb_refl. simpl.
  rewrite (stretch_same _ _ Hl). reflexivity.
Qed.

(** [a[:, c : c + k] = np.array(block)] for a block of [k] columns and
    as many rows as [a], at least one. *)
Lemma set_columns_tuples (W : nat) (rs : list (list Q)) (c k : nat)
      (block : list (list Q)) :
  c + k <= W -> block <> [] -> length block = length rs ->
  Forall (fun t => length t = k) block ->
  set_columns (Array2 W rs) c k (array_of_tuples block)
  = OK (Array2 W (zip_with (fun vals r => write_at c vals r) block rs)).
Proof.
  intros Hc Hne Hl Hk. unfold set_columns, array_of_tuples, broadcast_to_2d, n_rows.
  destruct block as [|t block']; [contradiction|].
  cbn [n_cols rows].
  replace (Nat.min (c + k) W - c) with k by lia.
  rewrite Hl, Nat.eqb_refl.
  rewrite (Forall_inv Hk), Nat.eqb_refl. simpl orb. simpl andb. cbv iota.
  rewrite (stretch_same _ _ Hl), (map_stretch_same _ _ Hk). reflexivity.
Qed.

(** Two successive writes side by side are one write of the two blocks. *)
Lemma write_step {X} (xs : list X) (rs : list (list Q)) (c k W : nat)
      (g h : X -> list Q) :
  Forall (fun r => length r = W) rs ->
  (forall x, In x xs -> length (g x) = k) ->
  (forall x, In x xs -> c + k + length (h x) <= W) ->
  zip_with (fun x r => write_at (c + k) (h x) r) xs
           (zip_with (fun x r => write_at c (g x) r) xs rs)
  = zip_with (fun x r => write_at c (g x ++ h x) r) xs rs.
Proof.
  intros HW Hg Hh. rewrite zip_with_nested.
  apply zip_with_ext_in. intros x r Hx Hr.
  rewrite Forall_forall in HW. specialize (HW r Hr).
  rewrite <- (Hg x Hx). apply write_at_app.
  rewrite (Hg x Hx), HW. apply Hh, Hx.
Qed.

Lemma write_rows_width {X} (xs : list X) (rs : list (list Q)) (c k W : nat)
      (g : X -> list Q) :
  Forall (fun r => length r = W) rs ->
  (forall x, In x xs -> length (g x) = k) ->
  c + k <= W ->
  Forall (fun r => length r = W) (zip_with (fun x r => write_at c (g x) r) xs rs).
Proof.
  intros HW Hg Hc. apply zip_with_Forall. intros x r Hx Hr.
  rewrite Forall_forall in HW. specialize (HW r Hr).
  rewrite write_at_length; [exact HW|]. rewrite (Hg x Hx). lia.
Qed.

Lemma fold_add_shift (l : list nat) (a : nat) :
  fold_left Nat.add l a = a + fold_left Nat.add l 0.
Proof.
  revert a. induction l as [|x l IH]; intros a; simpl; [lia|].
  rewrite (IH (a + x)), (IH x). lia.
Qed.

Lemma sum_of_arities_cons (o : Objective) (objs : list Objective) :
  MOProblem.sum_of_arities (o :: objs)
  = number_of_objectives o + MOProblem.sum_of_arities objs.
Proof.
  unfold MOProblem.sum_of_arities. simpl. apply fold_add_shift.
Qed.

Lemma sum_of_arities_app (l m : list Objective) :
  MOProblem.sum_of_arities (l ++ m)
  = MOProblem.sum_of_arities l + MOProblem.sum_of_arities m.
Proof.
  induction l as [|o l IH]; [reflexivity|].
  simpl app. rewrite !sum_of_arities_cons, IH. lia.
Qed.

Lemma outputs_length (o : Objective) (x : list Q) :
  well_formed o -> length (outputs o x) = number_of_objectives o.
Proof.
  destruct o as [s|v]; simpl; [reflexivity|]. intros [_ H]. apply H.
Qed.

Lemma objective_vector_length (objs : list Objective) (x : list Q) :
  Forall well_formed objs ->
  length (objective_vector objs x) = MOProblem.sum_of_arities objs.
Proof.
  induction 1 as [|o objs Ho _ IH]; [reflexivity|].
  unfold objective_vector in *. simpl flat_map.
  rewrite length_app, IH, sum_of_arities_cons, (outputs_length _ _ Ho). reflexivity.
Qed.

(** One turn of the objective loop of [MOProblem.evaluate] writes the
    outputs of the objective at the running column. *)
Lemma MO_objective_step (o : Objective) (c W ncols : nat)
      (xs rs : list (list Q)) :
  well_formed o -> xs <> [] -> length rs = length xs ->
  c + number_of_objectives o <= W ->
  (if number_of_objectives o =? 1
   then set_column (Array2 W rs) c (evaluated o (Array2 ncols xs))
   else if 1 <? number_of_objectives o
        then set_columns (Array2 W rs) c (number_of_objectives o)
                         (evaluated o (Array2 ncols xs))
        else OK (Array2 W rs))
  = OK (Array2 W (zip_with (fun x r => write_at c (outputs o x) r) xs rs)).
Proof.
  intros Hwf Hne Hl Hc. destruct o as [s|v]; simpl in *.
  - rewrite set_column_floats; [|lia|rewrite length_map; symmetry; exact Hl].
    rewrite zip_with_map_l. reflexivity.
  - destruct Hwf as [Hk Hlen].
    assert (E1 : (vo_n_of_objectives v =? 1) = false) by (apply Nat.eqb_neq; lia).
    assert (E2 : (1 <? vo_n_of_objectives v) = true) by (apply Nat.ltb_lt; lia).
    rewrite E1, E2.
    rewrite set_columns_tuples.
    + rewrite zip_with_map_l. reflexivity.
    + exact Hc.
    + destruct xs; [contradiction | discriminate].
    + rewrite length_map. symmetry. exact Hl.
    + apply Forall_map, Forall_forall. intros x _. apply Hlen.
Qed.

(** The objective loop of [MOProblem.evaluate], started at column [c],
    writes the objective vector of each decision vector from column [c]
    on. *)
Lemma MO_objectives_loop_spec (objs : list Objective) :
  forall (c W ncols : nat) (xs rs : list (list Q)),
    Forall well_formed objs -> xs <> [] -> length rs = length xs ->
    Forall (fun r => length r = W) rs ->
    c + MOProblem.sum_of_arities objs <= W ->
    MOProblem.objectives_loop objs c (Array2 ncols xs) (Array2 W rs)
    = OK (Array2 W (zip_with (fun x r => write_at c (objective_vector objs x) r) xs rs)).
Proof.
  induction objs as [|o objs IH]; intros c W ncols xs rs Hwf Hne Hl HW Hc.
  - simpl. do 2 f_equal.
    rewrite (zip_with_ext_in _ (fun _ r => r)).
    + symmetry. apply zip_with_snd. symmetry. exact Hl.
    + intros x r _ _. apply write_at_nil.
  - rewrite sum_of_arities_cons in Hc.
    inversion Hwf as [|? ? Ho Hobjs]; subst.
    cbn [MOProblem.objectives_loop].
    rewrite (MO_objective_step o c W ncols xs rs Ho Hne Hl) by lia.
    cbn [bind].
    assert (Hout : forall x, In x xs -> length (outputs o x) = number_of_objectives o)
      by (intros x _; apply outputs_length, Ho).
    rewrite IH.
    + do 2 f_equal. unfold objective_vector. simpl flat_map.
      apply (write_step xs rs c (number_of_objectives o) W
                        (fun x => outputs o x) (objective_vector objs)); try assumption.
      intros x _. rewrite (objective_vector_length _ _ Hobjs). lia.
    + exact Hobjs.
    + exact Hne.
    + rewrite zip_with_length; [reflexivity | symmetry; exact Hl].
    + apply (write_rows_width xs rs c (number_of_objectives o) W); try assumption. lia.
    + lia.
Qed.

Lemma zip_with_combine {A B C} (f : A -> B -> C) (l : list A) (m : list B) :
  zip_with f l m = map (fun ab => f (fst ab) (snd ab)) (combine l m).
Proof.
  revert m. induction l as [|x l IH]; intros [|y m]; simpl; try reflexivity.
  f_equal. apply IH.
Qed.

(** The constraint loop, started at column [c], writes the values of the
    constraints from column [c] on, row by row. *)
Lemma constraints_loop_spec (cs : list ScalarConstraint) :
  forall (c K ncols W : nat) (xs os rs : list (list Q)),
    length os = length xs -> length rs = length xs ->
    Forall (fun r => length r = K) rs ->
    c + length cs <= K ->
    constraints_loop cs c (Array2 ncols xs) (Array2 W os) (Array2 K rs)
    = OK (Array2 K
            (zip_with
               (fun xo r =>
                  write_at c (map (fun con => sc_evaluate con (fst xo) (snd xo)) cs) r)
               (combine xs os) rs)).
Proof.
  induction cs as [|con cs IH]; intros c K ncols W xs os rs Ho Hl HK Hc.
  - simpl. do 2 f_equal.
    rewrite (zip_with_ext_in _ (fun _ r => r)).
    + symmetry. apply zip_with_snd. rewrite length_combine. lia.
    + intros x r _ _. apply write_at_nil.
  - simpl length in Hc. cbn [constraints_loop rows].
    assert (Hcomb : length (combine xs os) = length rs)
      by (rewrite length_combine; lia).
    rewrite zip_with_combine.
    rewrite set_column_floats; [|lia|rewrite length_map; exact Hcomb].
    cbn [bind]. rewrite zip_with_map_l.
    rewrite IH.
    + do 2 f_equal. replace (S c) with (c + 1) by lia.
      apply (write_step (combine xs os) rs c 1 K
               (fun xo => [sc_evaluate con (fst xo) (snd xo)])
               (fun xo => map (fun con => sc_evaluate con (fst xo) (snd xo)) cs)).
      * exact HK.
      * reflexivity.
      * intros x _. rewrite length_map. lia.
    + exact Ho.
    + rewrite zip_with_length; [lia | exact Hcomb].
    + apply (write_rows_width (combine xs os) rs c 1 K
               (fun xo => [sc_evaluate con (fst xo) (snd xo)])); try assumption.
      * reflexivity.
      * lia.
    + lia.
Qed.

Lemma empty_rows_length (n m : nat) : length (rows (Np.empty n m)) = n.
Proof. simpl. apply repeat_length. Qed.

Lemma empty_rows_width (n m : nat) :
  Forall (fun r => length r = m) (rows (Np.empty n m)).
Proof.
  simpl. apply Forall_forall. intros r Hr.
  apply repeat_spec in Hr. subst r. apply repeat_length.
Qed.

(** The constraint part of [evaluate] on a problem whose
    [n_of_constraints] is the length of its constraint list. *)
Lemma constraints_part_spec (constraints : option (list ScalarConstraint))
      (ncols W : nat) (xs os : list (list Q)) :
  length os = length xs ->
  let n := match constraints with Some cs => length cs | None => 0 end in
  constraints_part constraints (Array2 ncols xs) (Array2 W os)
                   (if 0 <? n then Some (Np.empty (length xs) n) else None)
  = OK (constraint_matrix constraints xs os).
Proof.
  intros Ho n. subst n. destruct constraints as [[|con cs]|]; try reflexivity.
  set (K := length (con :: cs)).
  assert (E : (0 <? K) = true) by (apply Nat.ltb_lt; unfold K; simpl; lia).
  rewrite E. unfold constraints_part.
  generalize (empty_rows_length (length xs) K), (empty_rows_width (length xs) K).
  unfold Np.empty. cbn [rows]. intros Hl HK.
  rewrite constraints_loop_spec; try assumption; [|unfold K; lia].
  cbn [bind]. unfold constraint_matrix. fold K. do 3 f_equal.
  rewrite (zip_with_ext_in _
             (fun xo _ => map (fun c => sc_evaluate c (fst xo) (snd xo)) (con :: cs))).
  - rewrite zip_with_fst by (rewrite length_combine; lia).
    symmetry.
    apply (zip_with_combine (fun x o => map (fun c => sc_evaluate c x o) (con :: cs))).
  - intros xo r _ Hr. apply write_at_whole.
    rewrite Forall_forall in HK. rewrite (HK r Hr), length_map. reflexivity.
Qed.

Lemma MO_init_fields objectives variables constraints nadir ideal p :
  MOProblem.init objectives variables constraints nadir ideal = OK p ->
  p = {| MOProblem.base := ProblemBase.init;
         MOProblem.objectives := objectives;
         MOProblem.variables := variables;
         MOProblem.constraints := constraints;
         MOProblem.n_of_variables := length variables;
         MOProblem.n_of_objectives := MOProblem.sum_of_arities objectives;
         MOProblem.n_of_constraints :=
           match constraints with Some cs => length cs | None => 0 end;
         MOProblem.nadir := nadir;
         MOProblem.ideal := ideal |}.
Proof.
  unfold MOProblem.init.
  destruct (check_length nadir _ _) as [[]|e]; [|discriminate].
  destruct (check_length ideal _ _) as [[]|e]; [|discriminate].
  simpl. intros [= <-]. reflexivity.
Qed.

Lemma ScalarMO_init_fields objectives variables constraints nadir ideal p :
  ScalarMOProblem.init objectives variables constraints nadir ideal = OK p ->
  p = {| ScalarMOProblem.base := ProblemBase.init;
         ScalarMOProblem.objectives := objectives;
         ScalarMOProblem.variables := variables;
         ScalarMOProblem.constraints := constraints;
         ScalarMOProblem.n_of_objectives := length objectives;
         ScalarMOProblem.n_of_variables := length variables;
         ScalarMOProblem.n_of_constraints :=
           match constraints with Some cs => length cs | None => 0 end;
         ScalarMOProblem.nadir := nadir;
         ScalarMOProblem.ideal := ideal |}.
Proof.
  unfold ScalarMOProblem.init.
  destruct (check_length nadir _ _) as [[]|e]; [|discriminate].
  destruct (check_length ideal _ _) as [[]|e]; [|discriminate].
  cbn [bind].
  match goal with |- context [bind ?c _] => destruct c as [[]|e] end;
    [|discriminate].
  simpl. intros [= <-]. reflexivity.
Qed.

(** [MOProblem.evaluate] after its bounds check, on a batch of the right
    width with at least one row: the objective matrix holds the
    objective vector of each row, the constraint matrix the constraint
    values. *)
Lemma MO_evaluate_checked_spec objectives variables constraints nadir ideal p batch :
  MOProblem.init objectives variables constraints nadir ideal = OK p ->
  Forall well_formed objectives ->
  n_cols batch = length variables -> rows batch <> [] ->
  let M := map (objective_vector objectives) (rows batch) in
  MOProblem.evaluate_checked p batch
  = OK (Array2 (MOProblem.sum_of_arities objectives) M,
        constraint_matrix constraints (rows batch) M).
Proof.
  intros Hinit Hwf Hcols Hne M.
  apply MO_init_fields in Hinit. subst p.
  unfold MOProblem.evaluate_checked. cbn [MOProblem.n_of_variables
    MOProblem.n_of_objectives MOProblem.n_of_constraints MOProblem.objectives
    MOProblem.constraints].
  rewrite Hcols, Nat.eqb_refl. cbn [negb].
  destruct batch as [ncols xs]. cbn [rows n_cols] in *. unfold n_rows. cbn [rows].
  set (W := MOProblem.sum_of_arities objectives).
  generalize (empty_rows_length (length xs) W), (empty_rows_width (length xs) W).
  unfold Np.empty at 1 2 3. cbn [rows]. intros Hl HW.
  rewrite MO_objectives_loop_spec; try assumption; [|unfold W; lia].
  cbn [bind].
  assert (EM : zip_with (fun x r => write_at 0 (objective_vector objectives x) r) xs
                        (repeat (repeat uninitialised W) (length xs)) = M).
  { rewrite (zip_with_ext_in _ (fun x _ => objective_vector objectives x)).
    - apply zip_with_fst. symmetry. exact Hl.
    - intros x r _ Hr. apply write_at_whole.
      rewrite Forall_forall in HW. rewrite (HW r Hr).
      apply objective_vector_length, Hwf. }
  rewrite EM.
  rewrite (constraints_part_spec constraints ncols W xs M).
  - reflexivity.
  - unfold M. apply length_map.
Qed.

(** ** The bounds check of [MOProblem.evaluate] *)

Lemma Qltb_lt (x y : Q) : Qltb x y = true <-> (x < y)%Q.
Proof.
  unfold Qltb. rewrite negb_true_iff. split.
  - intros H. apply Qnot_le_lt. intros L.
    apply Qle_bool_iff in L. congruence.
  - intros H. destruct (Qle_bool y x) eqn:E; [|reflexivity].
    apply Qle_bool_iff in E. exfalso. exact (Qlt_not_le _ _ H E).
Qed.

Lemma Qltb_ge (x y : Q) : Qltb x y = false <-> (y <= x)%Q.
Proof.
  unfold Qltb. rewrite negb_false_iff. apply Qle_bool_iff.
Qed.

(** A 1-D array of one bound per variable compared with a batch of the
    right width: every row is compared entry by entry. *)
Lemma elementwise_bounds {C} (f : Q -> Q -> C) (v : list Q) (batch : array2 Q) :
  rectangular batch -> n_cols batch = length v ->
  elementwise f (reshape_row v) batch
  = OK (Array2 (length v) (map (fun r => zip_with f v r) (rows batch))).
Proof.
  intros Hrect Hcols. unfold elementwise, reshape_row. cbn [n_cols rows].
  unfold n_rows at 1. cbn [rows length].
  assert (Er : exists r, broadcast_dim 1 (n_rows batch) = Some r
                         /\ stretch r [v] = repeat v (n_rows batch)
                         /\ stretch r (rows batch) = rows batch).
  { unfold broadcast_dim, n_rows. destruct (length (rows batch)) as [|[|n]] eqn:E.
    - exists 0. simpl. repeat split. apply stretch_same, E.
    - exists 1. simpl. repeat split. apply stretch_same, E.
    - exists (S (S n)). simpl. repeat split. apply stretch_same, E. }
  destruct Er as (r & -> & -> & ->).
  unfold broadcast_dim. rewrite Hcols, Nat.eqb_refl.
  do 2 f_equal. unfold n_rows. rewrite zip_with_repeat_l.
  apply map_ext_in. intros row Hrow.
  unfold rectangular in Hrect. rewrite Forall_forall in Hrect.
  rewrite !stretch_same; [reflexivity | | reflexivity].
  rewrite (Hrect row Hrow). exact Hcols.
Qed.

Lemma any_map (g : list Q -> list bool) (c : nat) (l : list (list Q)) :
  Np.any (Array2 c (map g l)) = true
  <-> Exists (fun r => existsb (fun b => b) (g r) = true) l.
Proof.
  unfold Np.any. cbn [rows]. rewrite existsb_exists, Exists_exists. split.
  - intros (bs & Hin & H). apply in_map_iff in Hin as (r & <- & Hr). eauto.
  - intros (r & Hr & H). exists (g r). split; [apply in_map, Hr | exact H].
Qed.

Lemma compare_row (sel : Variable_ -> Q) (cmp : Q -> Q -> bool)
      (P : Q -> Q -> Prop) :
  (forall b x, cmp b x = true <-> P b x) ->
  forall (variables : list Variable_) (row : list Q),
    existsb (fun b => b) (zip_with cmp (map sel variables) row) = true
    <-> Exists (fun vx => P (sel (fst vx)) (snd vx)) (combine variables row).
Proof.
  intros Hcmp variables.
  induction variables as [|var variables IH]; intros [|x row]; simpl;
    try (split; [discriminate | intros H; inversion H]).
  rewrite orb_true_iff, Exists_cons, Hcmp, IH. reflexivity.
Qed.

Lemma Exists_iff {A} (P P' : A -> Prop) (l : list A) :
  (forall a, P a <-> P' a) -> Exists P l <-> Exists P' l.
Proof.
  intros H. split; apply Exists_impl; intros a; apply H.
Qed.

Lemma any_below (p : MOProblem.t) (batch : array2 Q) :
  Np.any (Array2 (length (MOProblem.get_variable_lower_bounds p))
                 (map (fun r => zip_with (fun l x => Qltb x l)
                                         (MOProblem.get_variable_lower_bounds p) r)
                      (rows batch))) = true
  <-> Exists (below_lower (MOProblem.variables p)) (rows batch).
Proof.
  rewrite any_map. apply Exists_iff. intros r.
  unfold MOProblem.get_variable_lower_bounds, below_lower.
  apply (compare_row (fun var => fst (get_bounds var)) (fun l x => Qltb x l)
                     (fun l x => (x < l)%Q)).
  intros b x. apply Qltb_lt.
Qed.

Lemma any_above (p : MOProblem.t) (batch : array2 Q) :
  Np.any (Array2 (length (MOProblem.get_variable_upper_bounds p))
                 (map (fun r => zip_with (fun u x => Qltb u x)
                                         (MOProblem.get_variable_upper_bounds p) r)
                      (rows batch))) = true
  <-> Exists (above_upper (MOProblem.variables p)) (rows batch).
Proof.
  rewrite any_map. apply Exists_iff. intros r.
  unfold MOProblem.get_variable_upper_bounds, above_upper.
  apply (compare_row (fun var => snd (get_bounds var)) (fun u x => Qltb u x)
                     (fun u x => (u < x)%Q)).
  intros b x. apply Qltb_lt.
Qed.

Lemma bounds_lengths (p : MOProblem.t) :
  length (MOProblem.get_variable_lower_bounds p) = length (MOProblem.variables p)
  /\ length (MOProblem.get_variable_upper_bounds p) = length (MOProblem.variables p).
Proof.
  unfold MOProblem.get_variable_lower_bounds, MOProblem.get_variable_upper_bounds.
  rewrite !length_map. split; reflexivity.
Qed.

(** The bounds check on a batch of the right width. *)
Lemma check_bounds_spec (p : MOProblem.t) (batch : array2 Q) :
  correctly_sized (MOProblem.variables p) batch ->
  (Exists (below_lower (MOProblem.variables p)) (rows batch) ->
   MOProblem.check_bounds p batch = Raise (ValueError MOProblem.lower_bounds_msg))
  /\ (~ Exists (below_lower (MOProblem.variables p)) (rows batch) ->
      Exists (above_upper (MOProblem.variables p)) (rows batch) ->
      MOProblem.check_bounds p batch = Raise (ValueError MOProblem.upper_bounds_msg))
  /\ (~ Exists (below_lower (MOProblem.variables p)) (rows batch) ->
      ~ Exists (above_upper (MOProblem.variables p)) (rows batch) ->
      MOProblem.check_bounds p batch = OK tt).
Proof.
  intros [Hrect Hcols]. destruct (bounds_lengths p) as [Hlo Hup].
  unfold MOProblem.check_bounds.
  rewrite !elementwise_bounds by (try assumption; congruence).
  cbn [bind].
  pose proof (any_below p batch) as Hb. pose proof (any_above p batch) as Ha.
  destruct (Np.any _) eqn:Eb in |- *.
  - repeat split; try reflexivity; intros N; exfalso; apply N, Hb; exact Eb.
  - assert (Nb : ~ Exists (below_lower (MOProblem.variables p)) (rows batch)).
    { intros H. apply Hb in H. congruence. }
    destruct (Np.any _) eqn:Ea in |- *.
    + repeat split; try reflexivity; try contradiction.
      intros _ N. exfalso. apply N, Ha. exact Ea.
    + assert (Na : ~ Exists (above_upper (MOProblem.variables p)) (rows batch)).
      { intros H. apply Ha in H. congruence. }
      repeat split; try reflexivity; contradiction.
Qed.

Lemma within_not_outside (variables : list Variable_) (rows : list (list Q)) :
  Forall (within_bounds variables) rows ->
  ~ Exists (below_lower variables) rows /\ ~ Exists (above_upper variables) rows.
Proof.
  intros H. split; intros E; apply Exists_exists in E as (r & Hr & E);
    rewrite Forall_forall in H; specialize (H r Hr);
    unfold within_bounds in H; rewrite Forall_forall in H;
    apply Exists_exists in E as (vx & Hvx & E); destruct (H vx Hvx) as [L U].
  - exact (Qlt_not_le _ _ E L).
  - exact (Qlt_not_le _ _ E U).
Qed.

(** No array assignment raises one of the two exceptions of the bounds
    check. *)
Lemma set_column_raise a c v e : set_column a c v = Raise e -> ~ bounds_error e.
Proof.
  unfold set_column. destruct (n_cols a <=? c).
  - intros [= <-] [H|H]; discriminate.
  - destruct (broadcast_to_1d _ _); [discriminate|].
    intros [= <-] [H|H]; discriminate.
Qed.

Lemma set_columns_raise a c k v e : set_columns a c k v = Raise e -> ~ bounds_error e.
Proof.
  unfold set_columns. destruct (broadcast_to_2d _ _ _); [discriminate|].
  intros [= <-] [H|H]; discriminate.
Qed.

Lemma MO_objectives_loop_raise objs : forall c dv ov e,
  MOProblem.objectives_loop objs c dv ov = Raise e -> ~ bounds_error e.
Proof.
  induction objs as [|o objs IH]; intros c dv ov e; simpl; [discriminate|].
  destruct (number_of_objectives o =? 1).
  - destruct (set_column _ _ _) as [ov'|e'] eqn:E; simpl.
    + apply IH.
    + intros [= <-]. exact (set_column_raise _ _ _ _ E).
  - destruct (1 <? number_of_objectives o).
    + destruct (set_columns _ _ _ _) as [ov'|e'] eqn:E; simpl.
      * apply IH.
      * intros [= <-]. exact (set_columns_raise _ _ _ _ _ E).
    + simpl. apply IH.
Qed.

Lemma constraints_loop_raise cs : forall c dv ov cv e,
  constraints_loop cs c dv ov cv = Raise e -> ~ bounds_error e.
Proof.
  induction cs as [|con cs IH]; intros c dv ov cv e; simpl; [discriminate|].
  destruct (set_column _ _ _) as [cv'|e'] eqn:E; simpl.
  - apply IH.
  - intros [= <-]. exact (set_column_raise _ _ _ _ E).
Qed.

Lemma constraints_part_raise cons dv ov cv e :
  constraints_part cons dv ov cv = Raise e -> ~ bounds_error e.
Proof.
  unfold constraints_part. destruct cv as [cv|]; [|discriminate].
  destruct cons as [cs|].
  - destruct (constraints_loop _ _ _ _ _) as [cv'|e'] eqn:E; simpl; [discriminate|].
    intros [= <-]. exact (constraints_loop_raise _ _ _ _ _ _ E).
  - intros [= <-] [H|H]; discriminate.
Qed.

Lemma MO_evaluate_checked_raise (p : MOProblem.t) (batch : array2 Q) e :
  MOProblem.evaluate_checked p batch = Raise e -> ~ bounds_error e.
Proof.
  unfold MOProblem.evaluate_checked.
  destruct (negb _).
  - intros [= <-] [H|H]; discriminate.
  - destruct (MOProblem.objectives_loop _ _ _ _) as [ov|e'] eqn:E; simpl.
    + destruct (constraints_part _ _ _ _) as [cv|e'] eqn:E'; simpl; [discriminate|].
      intros [= <-]. exact (constraints_part_raise _ _ _ _ _ E').
    + intros [= <-]. exact (MO_objectives_loop_raise _ _ _ _ _ E).
Qed.

(** ** Evaluation of a mixed-arity problem *)





(** Arities 1, 3 and 1: the columns are the first objective's value, the
    three values of the second in its own order, the third objective's
    value. *)
Example packing_1_3_1 :
  fst (MOProblem.evaluate mixed_problem (D2 example_batch))
  = OK (Array2 5 [[sum_objective.(so_evaluate) [(1 # 5)%Q; (3 # 10)%Q];
                   (1 # 5)%Q; (3 # 10)%Q; ((1 # 5) * (3 # 10))%Q;
                   difference_objective.(so_evaluate) [(1 # 5)%Q; (3 # 10)%Q]];
                  [sum_objective.(so_evaluate) [1%Q; 1%Q];
                   1%Q; 1%Q; (1 * 1)%Q;
                   difference_objective.(so_evaluate) [1%Q; 1%Q]]],
        Some (Array2 1 [[((1 # 5) + (3 # 10) - 1)%Q]; [(1 + 1 - 1)%Q]])).
Proof. reflexivity. Qed.

Lemma outside_dec (variables : list Variable_) (rows : list (list Q)) :
  {Exists (below_lower variables) rows} + {~ Exists (below_lower variables) rows}.
Proof.
  apply Exists_dec. intros r. apply Exists_dec. intros [var x]. simpl.
  destruct (Qlt_le_dec x (fst (get_bounds var))) as [H|H].
  - left. exact H.
  - right. apply Qle_not_lt, H.
Qed.

(** C3.  On a batch of the right width, [MOProblem.evaluate] raises the
    lower-bound [ValueError] when some entry lies strictly below the
    lower bound of its column, the upper-bound [ValueError] (another
    message) when none does and some entry lies strictly above its upper
    bound, hence one of the two whenever an entry lies outside its
    interval; and neither of them when every entry lies within its
    closed interval, entries equal to a bound included: the call then
    returns a result when the objectives are well formed and the batch
    has a row. *)
Theorem C3_evaluate_checks_bounds
        (objectives : list Objective) (variables : list Variable_)
        (constraints : option (list ScalarConstraint)) (nadir ideal : option ndarray)
        (p : MOProblem.t) (batch : array2 Q) :
  MOProblem.init objectives variables constraints nadir ideal = OK p ->
  correctly_sized variables batch ->
  let outcome := fst (MOProblem.evaluate p (D2 batch)) in
  MOProblem.lower_bounds_msg <> MOProblem.upper_bounds_msg
  /\ (Exists (below_lower variables) (rows batch) ->
      outcome = Raise (ValueError MOProblem.lower_bounds_msg))
  /\ (~ Exists (below_lower variables) (rows batch) ->
      Exists (above_upper variables) (rows batch) ->
      outcome = Raise (ValueError MOProblem.upper_bounds_msg))
  /\ (Exists (below_lower variables) (rows batch)
      \/ Exists (above_upper variables) (rows batch) ->
      exists e, outcome = Raise e /\ bounds_error e)
  /\ (Forall (within_bounds variables) (rows batch) ->
      forall e, outcome = Raise e -> ~ bounds_error e)
  /\ (Forall (within_bounds variables) (rows batch) ->
      Forall well_formed objectives -> rows batch <> [] ->
      is_OK outcome = true).
Proof.
  intros Hinit Hsized outcome. subst outcome.
  pose proof (MO_init_fields _ _ _ _ _ _ Hinit) as Hp.
  assert (Hvars : MOProblem.variables p = variables) by (rewrite Hp; reflexivity).
  rewrite <- Hvars in *.
  destruct (check_bounds_spec p batch Hsized) as (Hlow & Hup & Hok).
  unfold MOProblem.evaluate, MOProblem.evaluate_result. cbn [fst promote].
  split; [discriminate|]. split; [|split; [|split; [|split]]].
  - intros H. rewrite (Hlow H). reflexivity.
  - intros N H. rewrite (Hup N H). reflexivity.
  - intros H.
    destruct (outside_dec (MOProblem.variables p) (rows batch)) as [B|N].
    + rewrite (Hlow B). eexists. split; [reflexivity | left; reflexivity].
    + destruct H as [B|A]; [contradiction|].
      rewrite (Hup N A). eexists. split; [reflexivity | right; reflexivity].
  - intros Hin e. destruct (within_not_outside _ _ Hin) as [Nb Na].
    rewrite (Hok Nb Na). cbn [bind]. apply MO_evaluate_checked_raise.
  - intros Hin Hwf Hne. destruct (within_not_outside _ _ Hin) as [Nb Na].
    rewrite (Hok Nb Na). cbn [bind].
    rewrite (MO_evaluate_checked_spec objectives (MOProblem.variables p)
               constraints nadir ideal p batch); try assumption.
    + reflexivity.
    + apply Hsized.
Qed.

(** C3 at the same problem and batch; the second row lies on the upper
    bounds. *)
Lemma C3_witness :
  let outcome := fst (MOProblem.evaluate mixed_problem (D2 example_batch)) in
  MOProblem.lower_bounds_msg <> MOProblem.upper_bounds_msg
  /\ (Exists (below_lower two_variables) (rows example_batch) ->
      outcome = Raise (ValueError MOProblem.lower_bounds_msg))
  /\ (~ Exists (below_lower two_variables) (rows example_batch) ->
      Exists (above_upper two_variables) (rows example_batch) ->
      outcome = Raise (ValueError MOProblem.upper_bounds_msg))
  /\ (Exists (below_lower two_variables) (rows example_batch)
      \/ Exists (above_upper two_variables) (rows example_batch) ->
      exists e, outcome = Raise e /\ bounds_error e)
  /\ (Forall (within_bounds two_variables) (rows example_batch) ->
      forall e, outcome = Raise e -> ~ bounds_error e)
  /\ (Forall (within_bounds two_variables) (rows example_batch) ->
      Forall well_formed mixed_objectives -> rows example_batch <> [] ->
      is_OK outcome = true).
Proof.
  apply (C3_evaluate_checks_bounds mixed_objectives two_variables
           (Some [sum_constraint]) None None mixed_problem example_batch).
  - reflexivity.
  - unfold correctly_sized, rectangular. simpl. split; [repeat constructor | reflexivity].
Defined.

(** One coordinate below its lower bound fails, with the lower-bound
    message; one above its upper bound fails, with the other message; a
    coordinate exactly on a bound passes. *)
Example bounds_examples :
  fst (MOProblem.evaluate mixed_problem (D1 [(-1 # 10)%Q; (1 # 2)%Q]))
  = Raise (ValueError "Some decision variable values violate lower bounds")
  /\ fst (MOProblem.evaluate mixed_problem (D1 [(1 # 2)%Q; (11 # 10)%Q]))
     = Raise (ValueError "Some decision variable values violate upper bounds")
  /\ is_OK (fst (MOProblem.evaluate mixed_problem (D1 [0%Q; 1%Q]))) = true.
Proof. repeat split. Qed.

(** ** The width of the batch *)

(** [ScalarMOProblem.evaluate] checks the width first. *)
Lemma ScalarMO_evaluate_width_mismatch (p : ScalarMOProblem.t) (dv : ndarray) :
  n_cols (promote dv) <> ScalarMOProblem.n_of_variables p ->
  fst (ScalarMOProblem.evaluate p dv)
  = Raise (ProblemError (input_width_msg (n_cols (promote dv))
                                         (ScalarMOProblem.n_of_variables p))).
Proof.
  intros H. unfold ScalarMOProblem.evaluate, ScalarMOProblem.evaluate_result.
  cbn [fst]. apply Nat.eqb_neq in H. rewrite H. reflexivity.
Qed.

(** [MOProblem.evaluate] reaches its width check only when the bounds
    check before it has raised nothing. *)
Lemma MO_evaluate_width_mismatch (p : MOProblem.t) (dv : ndarray) :
  n_cols (promote dv) <> MOProblem.n_of_variables p ->
  MOProblem.check_bounds p (promote dv) = OK tt ->
  fst (MOProblem.evaluate p dv)
  = Raise (ProblemError (input_width_msg (n_cols (promote dv))
                                         (MOProblem.n_of_variables p))).
Proof.
  intros H Hb. unfold MOProblem.evaluate, MOProblem.evaluate_result.
  cbn [fst]. rewrite Hb. cbn [bind]. unfold MOProblem.evaluate_checked.
  apply Nat.eqb_neq in H. rewrite H. reflexivity.
Qed.

(** With a wrong width, [MOProblem.evaluate] returns no result: one of
    its checks raises. *)
Lemma MO_evaluate_width_mismatch_fails (p : MOProblem.t) (dv : ndarray) :
  n_cols (promote dv) <> MOProblem.n_of_variables p ->
  is_OK (fst (MOProblem.evaluate p dv)) = false.
Proof.
  intros H. destruct (MOProblem.check_bounds p (promote dv)) as [[]|e] eqn:E.
  - rewrite (MO_evaluate_width_mismatch p dv H E). reflexivity.
  - unfold MOProblem.evaluate, MOProblem.evaluate_result. cbn [fst].
    rewrite E. reflexivity.
Qed.

(** C4.  A batch of two columns given to a problem of three variables:
    [ScalarMOProblem.evaluate] raises the [ProblemError] that names both
    widths, [MOProblem.evaluate] raises a [ValueError] from the bounds
    comparison that precedes its width check.  With one variable and the
    batch [[0.5, 2.0]] the comparison broadcasts and [MOProblem.evaluate]
    raises the upper-bound [ValueError]. *)
Theorem C4_mixed_arity_width_check_comes_late :
  MOProblem.init [Scalar sum_objective] three_variables None None None
  = OK (single_objective_problem three_variables)
  /\ n_cols narrow_batch <> MOProblem.n_of_variables (single_objective_problem three_variables)
  /\ fst (MOProblem.evaluate (single_objective_problem three_variables) (D2 narrow_batch))
     = Raise (ValueError "operands could not be broadcast together")
  /\ fst (ScalarMOProblem.evaluate three_variable_scalar_problem (D2 narrow_batch))
     = Raise (ProblemError
                "The length of the input vectors does not match the number of variables in the problem: Input vector length 2, number of variables 3.")
  /\ MOProblem.init [Scalar sum_objective] [unit_interval "x0"] None None None
     = OK (single_objective_problem [unit_interval "x0"])
  /\ n_cols wide_batch
     <> MOProblem.n_of_variables (single_objective_problem [unit_interval "x0"])
  /\ fst (MOProblem.evaluate (single_objective_problem [unit_interval "x0"]) (D2 wide_batch))
     = Raise (ValueError "Some decision variable values violate upper bounds").
Proof.
  repeat split; simpl; discriminate.
Qed.

(** ** One vector and the batch of that one row *)

(** C5.  [evaluate] on a 1-D vector [v] and on the 2-D batch whose only
    row is [v] give the same outcome (the same objective matrix and
    constraint values, or the same exception) and leave the same
    instance, in [ScalarMOProblem] and in [MOProblem]. *)
Theorem C5_vector_and_one_row_batch_agree
        (fixed : ScalarMOProblem.t) (mixed : MOProblem.t) (v : list Q) :
  ScalarMOProblem.evaluate fixed (D1 v)
  = ScalarMOProblem.evaluate fixed (D2 (Array2 (length v) [v]))
  /\ MOProblem.evaluate mixed (D1 v)
     = MOProblem.evaluate mixed (D2 (Array2 (length v) [v])).
Proof.
  split.
  - unfold ScalarMOProblem.evaluate, ScalarMOProblem.evaluate_result, promote,
      reshape_row. reflexivity.
  - unfold MOProblem.evaluate, MOProblem.evaluate_result, promote, reshape_row.
    reflexivity.
Qed.

(** ** Constraint values alone *)

(** C8.  [evaluate_constraint_values] of a [ScalarMOProblem] or of an
    [MOProblem] raises [NotImplementedError], whatever the instance
    holds, and returns no value. *)
Theorem C8_evaluate_constraint_values_not_implemented
        (fixed : ScalarMOProblem.t) (mixed : MOProblem.t) :
  (exists msg, fst (ScalarMOProblem.evaluate_constraint_values fixed)
               = Raise (NotImplementedError msg))
  /\ (exists msg, fst (MOProblem.evaluate_constraint_values mixed)
                  = Raise (NotImplementedError msg))
  /\ is_OK (fst (ScalarMOProblem.evaluate_constraint_values fixed)) = false
  /\ is_OK (fst (MOProblem.evaluate_constraint_values mixed)) = false.
Proof.
  repeat split; eexists; reflexivity.
Qed.

(** ** Names of the objectives *)

(** What [MOProblem.get_objective_names] computes: the lists
    [list(obj.name)] one after the other. *)
Lemma MO_get_objective_names_flat (p : MOProblem.t) :
  MOProblem.get_objective_names p = flat_map list_of_name (MOProblem.objectives p).
Proof.
  unfold MOProblem.get_objective_names.
  assert (H : forall (l : list (list string)) (acc : list string),
             fold_left (@app string) l acc = (acc ++ concat l)%list).
  { induction l as [|x l IH]; intros acc; simpl.
    - symmetry. apply app_nil_r.
    - rewrite IH. symmetry. apply app_assoc. }
  rewrite H. simpl. rewrite flat_map_concat_map. reflexivity.
Qed.

(** C9.  A scalar objective named [f1] contributes the two names [f] and
    [1] to [MOProblem.get_objective_names], not the one name [f1]: the
    result has two elements for one objective column, where
    [ScalarMOProblem.get_objective_names] returns [f1]. *)
Theorem C9_scalar_name_is_split_into_characters :
  MOProblem.init [Scalar sum_objective] two_variables None None None
  = OK (single_objective_problem two_variables)
  /\ MOProblem.get_objective_names (single_objective_problem two_variables)
     = ["f"; "1"]%string
  /\ MOProblem.n_of_objectives (single_objective_problem two_variables) = 1
  /\ length (MOProblem.get_objective_names (single_objective_problem two_variables))
     <> MOProblem.n_of_objectives (single_objective_problem two_variables)
  /\ ScalarMOProblem.get_objective_names scalar_problem = ["f1"]%string
  /\ MOProblem.get_objective_names mixed_problem
     = ["f"; "1"; "g1"; "g2"; "g3"; "f"; "3"]%string.
Proof.
  repeat split. simpl. discriminate.
Qed.

(** ** Evaluation of a fixed-arity problem *)

(** The objective loop of [ScalarMOProblem.evaluate], started at column
    [c], writes one value per objective from column [c] on. *)
Lemma ScalarMO_objectives_loop_spec (objs : list ScalarObjective) :
  forall (c W ncols : nat) (xs rs : list (list Q)),
    length rs = length xs ->
    Forall (fun r => length r = W) rs ->
    c + length objs <= W ->
    ScalarMOProblem.objectives_loop objs c (Array2 ncols xs) (Array2 W rs)
    = OK (Array2 W (zip_with
                      (fun x r => write_at c (map (fun o => so_evaluate o x) objs) r)
                      xs rs)).
Proof.
  induction objs as [|o objs IH]; intros c W ncols xs rs Hl HW Hc.
  - simpl. do 2 f_equal.
    rewrite (zip_with_ext_in _ (fun _ r => r)).
    + symmetry. apply zip_with_snd. symmetry. exact Hl.
    + intros x r _ _. apply write_at_nil.
  - simpl length in Hc. cbn [ScalarMOProblem.objectives_loop rows].
    rewrite set_column_floats; [|lia|rewrite length_map; symmetry; exact Hl].
    cbn [bind]. rewrite zip_with_map_l.
    rewrite IH.
    + do 2 f_equal. replace (S c) with (c + 1) by lia.
      apply (write_step xs rs c 1 W (fun x => [so_evaluate o x])
                        (fun x => map (fun o => so_evaluate o x) objs)).
      * exact HW.
      * reflexivity.
      * intros x _. rewrite length_map. lia.
    + rewrite zip_with_length; [reflexivity | symmetry; exact Hl].
    + apply (write_rows_width xs rs c 1 W (fun x => [so_evaluate o x]));
        try assumption; [reflexivity | lia].
    + lia.
Qed.

(** [ScalarMOProblem.evaluate] on a batch of the right width: one row
    per decision vector, one column per objective in definition order,
    and the constraint values, or [None] without constraints. *)
Lemma ScalarMO_evaluate_spec objectives variables constraints nadir ideal p batch :
  ScalarMOProblem.init objectives variables constraints nadir ideal = OK p ->
  n_cols batch = length variables ->
  let M := map (fun x => map (fun o => so_evaluate o x) objectives) (rows batch) in
  fst (ScalarMOProblem.evaluate p (D2 batch))
  = OK (Array2 (length objectives) M, constraint_matrix constraints (rows batch) M).
Proof.
  intros Hinit Hcols M. apply ScalarMO_init_fields in Hinit. subst p.
  unfold ScalarMOProblem.evaluate, ScalarMOProblem.evaluate_result.
  cbn [fst promote ScalarMOProblem.n_of_variables ScalarMOProblem.n_of_objectives
       ScalarMOProblem.n_of_constraints ScalarMOProblem.objectives
       ScalarMOProblem.constraints].
  rewrite Hcols, Nat.eqb_refl. cbn [negb].
  destruct batch as [ncols xs]. cbn [rows n_cols] in *. unfold n_rows. cbn [rows].
  set (W := length objectives).
  generalize (empty_rows_length (length xs) W), (empty_rows_width (length xs) W).
  unfold Np.empty at 1 2 3. cbn [rows]. intros Hl HW.
  rewrite ScalarMO_objectives_loop_spec; try assumption; [|unfold W; lia].
  cbn [bind].
  assert (EM : zip_with (fun x r => write_at 0 (map (fun o => so_evaluate o x) objectives) r)
                        xs (repeat (repeat uninitialised W) (length xs)) = M).
  { rewrite (zip_with_ext_in _ (fun x _ => map (fun o => so_evaluate o x) objectives)).
    - apply zip_with_fst. symmetry. exact Hl.
    - intros x r _ Hr. apply write_at_whole.
      rewrite Forall_forall in HW. rewrite (HW r Hr). apply length_map. }
  rewrite EM.
  rewrite (constraints_part_spec constraints ncols W xs M).
  - reflexivity.
  - unfold M. apply length_map.
Qed.

(** ** The instance after [evaluate] *)

(** C10, as stated, fails.  On the problem [f1(x) = x0 + x1] over
    [[0, 1]^2] and the batch [[0.2, 0.3], [1.0, 1.0]] the call succeeds
    and [decision_vectors] and [objective_vectors] are [None]
    afterwards, not the batch and the matrix.  The same on the
    mixed-arity problem. *)
Lemma C10_counterexample :
  ScalarMOProblem.init [sum_objective] two_variables None None None = OK scalar_problem
  /\ fst (ScalarMOProblem.evaluate scalar_problem (D2 example_batch))
     = OK (Array2 1 [[((1 # 5) + (3 # 10))%Q]; [(1 + 1)%Q]], None)
  /\ ScalarMOProblem.decision_vectors
       (snd (ScalarMOProblem.evaluate scalar_problem (D2 example_batch))) = None
  /\ ScalarMOProblem.decision_vectors
       (snd (ScalarMOProblem.evaluate scalar_problem (D2 example_batch)))
     <> Some (D2 example_batch)
  /\ ScalarMOProblem.objective_vectors
       (snd (ScalarMOProblem.evaluate scalar_problem (D2 example_batch))) = None
  /\ is_OK (fst (MOProblem.evaluate mixed_problem (D2 example_batch))) = true
  /\ MOProblem.decision_vectors
       (snd (MOProblem.evaluate mixed_problem (D2 example_batch)))
     <> Some (D2 example_batch)
  /\ MOProblem.objective_vectors
       (snd (MOProblem.evaluate mixed_problem (D2 example_batch))) = None.
Proof.
  repeat split; simpl; discriminate.
Qed.

(** C10 (amended).  [evaluate] leaves the instance as it found it, after
    a successful call and after a failed one: no attribute changes,
    [decision_vectors] and [objective_vectors] included, and on an
    instance fresh from its constructor these two are [None] before and
    after the call. *)
Theorem C10_evaluate_leaves_instance_unchanged
        (fixed : ScalarMOProblem.t) (mixed : MOProblem.t) (dv : ndarray) :
  snd (ScalarMOProblem.evaluate fixed dv) = fixed
  /\ snd (MOProblem.evaluate mixed dv) = mixed
  /\ (forall objectives variables constraints nadir ideal,
         ScalarMOProblem.init objectives variables constraints nadir ideal = OK fixed ->
         ScalarMOProblem.decision_vectors (snd (ScalarMOProblem.evaluate fixed dv)) = None
         /\ ScalarMOProblem.objective_vectors (snd (ScalarMOProblem.evaluate fixed dv))
            = None)
  /\ (forall objectives variables constraints nadir ideal,
         MOProblem.init objectives variables constraints nadir ideal = OK mixed ->
         MOProblem.decision_vectors (snd (MOProblem.evaluate mixed dv)) = None
         /\ MOProblem.objective_vectors (snd (MOProblem.evaluate mixed dv)) = None).
Proof.
  split; [reflexivity|]. split; [reflexivity|]. split.
  - intros objectives variables constraints nadir ideal H.
    apply ScalarMO_init_fields in H. subst fixed. split; reflexivity.
  - intros objectives variables constraints nadir ideal H.
    apply MO_init_fields in H. subst mixed. split; reflexivity.
Qed.

(** ** The dataset-backed problem: nadir and ideal *)

Lemma maximum_cases (x y : Q) :
  (maximum x y = x \/ maximum x y = y)
  /\ (x <= maximum x y)%Q /\ (y <= maximum x y)%Q.
Proof.
  unfold maximum. destruct (Qltb x y) eqn:E.
  - apply Qltb_lt in E. repeat split; [right; reflexivity | | apply Qle_refl].
    apply Qlt_le_weak, E.
  - apply Qltb_ge in E. repeat split; [left; reflexivity | apply Qle_refl | exact E].
Qed.

Lemma minimum_cases (x y : Q) :
  (minimum x y = x \/ minimum x y = y)
  /\ (minimum x y <= x)%Q /\ (minimum x y <= y)%Q.
Proof.
  unfold minimum. destruct (Qltb y x) eqn:E.
  - apply Qltb_lt in E. repeat split; [right; reflexivity | | apply Qle_refl].
    apply Qlt_le_weak, E.
  - apply Qltb_ge in E. repeat split; [left; reflexivity | apply Qle_refl | exact E].
Qed.

(** Folding a selection [f] that returns one of its arguments, above
    both in the order [le], yields an element above all. *)
Section Extremum.
Variable le : Q -> Q -> Prop.
Variable f : Q -> Q -> Q.
Hypothesis le_refl : forall x, le x x.
Hypothesis le_trans : forall x y z, le x y -> le y z -> le x z.
Hypothesis f_cases :
  forall x y, (f x y = x \/ f x y = y) /\ le x (f x y) /\ le y (f x y).

Lemma fold_extremum (l : list Q) : forall x,
  In (fold_left f l x) (x :: l)
  /\ Forall (fun y => le y (fold_left f l x)) (x :: l).
Proof.
  induction l as [|y l IH]; intros x.
  - simpl. split; [left; reflexivity | repeat constructor; apply le_refl].
  - cbn [fold_left]. destruct (IH (f x y)) as [Hin Hall].
    destruct (f_cases x y) as [Hsel [Hx Hy]].
    apply Forall_cons_iff in Hall as [Hf Hall]. split.
    + destruct Hin as [Hin|Hin].
      * rewrite <- Hin. destruct Hsel as [-> | ->];
          [left; reflexivity | right; left; reflexivity].
      * right; right; exact Hin.
    + repeat constructor; try assumption.
      * exact (le_trans _ _ _ Hx Hf).
      * exact (le_trans _ _ _ Hy Hf).
Qed.
End Extremum.

Lemma nth_zip_with (f : Q -> Q -> Q) (a b : list Q) (j : nat) :
  j < length a -> j < length b ->
  nth j (zip_with f a b) 0%Q = f (nth j a 0%Q) (nth j b 0%Q).
Proof.
  revert b j. induction a as [|x a IH]; intros [|y b] [|j]; simpl; intros Ha Hb;
    try lia; [reflexivity|].
  apply IH; lia.
Qed.

(** Reducing the rows entry by entry reduces each column. *)
Lemma fold_rows_column (f : Q -> Q -> Q) (W : nat) (rs : list (list Q)) :
  forall r, length r = W -> Forall (fun r => length r = W) rs ->
  length (fold_left (zip_with f) rs r) = W
  /\ forall j, j < W ->
       nth j (fold_left (zip_with f) rs r) 0%Q
       = fold_left f (map (fun r => nth j r 0%Q) rs) (nth j r 0%Q).
Proof.
  induction rs as [|r' rs IH]; intros r Hr Hrs.
  - simpl. split; [exact Hr | reflexivity].
  - apply Forall_cons_iff in Hrs as [Hr' Hrs]. cbn [fold_left map].
    destruct (IH (zip_with f r r')) as [Hlen Hnth].
    + rewrite zip_with_length; congruence.
    + exact Hrs.
    + split; [exact Hlen|]. intros j Hj.
      rewrite (Hnth j Hj), nth_zip_with by lia. reflexivity.
Qed.

Lemma reduce_axis0_columnwise (f : Q -> Q -> Q) (what : string)
      (P : Q -> list Q -> Prop) (a : array2 Q) :
  (forall l x, P (fold_left f l x) (x :: l)) ->
  rectangular a -> rows a <> [] ->
  exists v, reduce_axis0 f what a = OK v /\ columnwise P v a.
Proof.
  intros HP Hrect Hne. unfold reduce_axis0.
  destruct a as [W [|r rs]]; [contradiction|]. cbn [rows n_cols] in *.
  unfold rectangular in Hrect. cbn [rows n_cols] in Hrect.
  apply Forall_cons_iff in Hrect as [Hr Hrs].
  destruct (fold_rows_column f W rs r Hr Hrs) as [Hlen Hnth].
  eexists. split; [reflexivity|]. split; [exact Hlen|].
  intros j Hj. cbn [n_cols] in Hj. rewrite (Hnth j Hj).
  unfold column. cbn [rows map]. apply HP.
Qed.

Lemma ScalarData_init_fields (decisions objectives : ndarray) (p : ScalarDataProblem.t) :
  ScalarDataProblem.init decisions objectives = OK p ->
  ScalarDataProblem.decision_vectors p = Some decisions
  /\ ScalarDataProblem.objective_vectors p = Some objectives
  /\ ScalarDataProblem.model_exists p = false
  /\ ScalarDataProblem.nadir p
     = match ScalarDataProblem.reduce_objectives max_axis0 objectives with
       | OK v => Some v
       | Raise _ => None
       end
  /\ ScalarDataProblem.ideal p
     = match ScalarDataProblem.reduce_objectives min_axis0 objectives with
       | OK v => Some v
       | Raise _ => None
       end.
Proof.
  unfold ScalarDataProblem.init.
  destruct (ScalarDataProblem.shape_1 decisions _); [|discriminate].
  destruct (ScalarDataProblem.shape_1 objectives _); [|discriminate].
  cbn [bind].
  destruct (ScalarDataProblem.reduce_objectives max_axis0 objectives); [|discriminate].
  destruct (ScalarDataProblem.reduce_objectives min_axis0 objectives); [|discriminate].
  cbn [bind]. intros [= <-]. repeat split.
Qed.

(** C6.  For an objective matrix with at least one row, the constructor
    of [ScalarDataProblem] sets [nadir] to the column-wise maximum of the
    matrix and [ideal] to its column-wise minimum: entry [j] of either is
    an entry of column [j], and no entry of that column is larger
    (smaller). *)
Theorem C6_nadir_and_ideal_are_column_extrema
        (decisions : ndarray) (objectives : array2 Q) (p : ScalarDataProblem.t) :
  rectangular objectives -> rows objectives <> [] ->
  ScalarDataProblem.init decisions (D2 objectives) = OK p ->
  exists nadir ideal : list Q,
    ScalarDataProblem.nadir p = Some (D1 nadir)
    /\ ScalarDataProblem.ideal p = Some (D1 ideal)
    /\ columnwise is_maximum nadir objectives
    /\ columnwise is_minimum ideal objectives.
Proof.
  intros Hrect Hne Hinit.
  destruct (ScalarData_init_fields _ _ _ Hinit) as (_ & _ & _ & Hn & Hi).
  destruct (reduce_axis0_columnwise maximum "maximum" is_maximum objectives)
    as (nadir & En & Hnadir); try assumption.
  { intros l x. unfold is_maximum.
    apply (fold_extremum (fun a b => (a <= b)%Q) maximum Qle_refl Qle_trans maximum_cases). }
  destruct (reduce_axis0_columnwise minimum "minimum" is_minimum objectives)
    as (ideal & Ei & Hideal); try assumption.
  { intros l x. unfold is_minimum.
    apply (fold_extremum (fun a b => (b <= a)%Q) minimum Qle_refl).
    - intros a b c H1 H2. exact (Qle_trans _ _ _ H2 H1).
    - exact minimum_cases. }
  exists nadir, ideal.
  cbn [ScalarDataProblem.reduce_objectives] in Hn, Hi.
  unfold max_axis0 in Hn. unfold min_axis0 in Hi.
  rewrite En in Hn. rewrite Ei in Hi. cbn [bind] in Hn, Hi.
  split; [exact Hn | split; [exact Hi | split; assumption]].
Qed.

(** C6 at a dataset of three solutions. *)
Lemma C6_witness :
  exists nadir ideal : list Q,
    ScalarDataProblem.nadir data_problem = Some (D1 nadir)
    /\ ScalarDataProblem.ideal data_problem = Some (D1 ideal)
    /\ columnwise is_maximum nadir data_objectives
    /\ columnwise is_minimum ideal data_objectives.
Proof.
  apply (C6_nadir_and_ideal_are_column_extrema (D2 data_decisions) data_objectives
                                               data_problem).
  - repeat constructor.
  - discriminate.
  - reflexivity.
Defined.

(** ** The dataset-backed problem: evaluation *)

Lemma zip_with_repeat_r {A B C} (f : A -> B -> C) (m : list A) (x : B) :
  zip_with f m (repeat x (length m)) = map (fun a => f a x) m.
Proof. induction m as [|y m IH]; simpl; [reflexivity | f_equal; exact IH]. Qed.


Local Open Scope Q_scope.











Local Close Scope Q_scope.







(** The stored rows of [data_problem], each as a query, return their own
    objective vectors. *)
Example data_problem_lookup :
  fst (ScalarDataProblem.evaluate data_problem (D1 [0%Q; 1%Q]))
  = OK (ScalarDataProblem.Tuple1 (Row [5%Q; 1%Q]))
  /\ fst (ScalarDataProblem.evaluate data_problem (D1 [2%Q; 3%Q]))
     = OK (ScalarDataProblem.Tuple1 (Row [2%Q; 7%Q]))
  /\ fst (ScalarDataProblem.evaluate data_problem (D1 [1%Q; 1%Q]))
     = OK (ScalarDataProblem.Tuple1 (Row [3%Q; 3%Q])).
Proof. repeat split. Qed.

(** * Further properties *)

(** ** Fixed-arity evaluation and its mixed-arity twin *)

Lemma constraint_matrix_None (constraints : option (list ScalarConstraint))
      (xs os : list (list Q)) :
  constraint_matrix constraints xs os = None
  <-> match constraints with Some cs => length cs | None => 0 end = 0.
Proof.
  destruct constraints as [[|c cs]|]; simpl; split; try reflexivity; discriminate.
Qed.

Lemma constraint_matrix_Some (constraints : option (list ScalarConstraint))
      (xs os : list (list Q)) (cv : array2 Q) :
  constraint_matrix constraints xs os = Some cv ->
  exists cs, constraints = Some cs
             /\ n_cols cv = length cs
             /\ rows cv = zip_with (fun x o => map (fun con => sc_evaluate con x o) cs)
                                   xs os.
Proof.
  destruct constraints as [[|c cs]|]; simpl; try discriminate.
  intros [= <-]. exists (c :: cs). repeat split.
Qed.

(** X1.  [ScalarMOProblem.evaluate] on a batch with one column per
    variable, of any number of rows and with entries inside or outside
    the variables' bounds, returns the matrix whose entry [(i, k)] is
    objective [k] at decision vector [i], with the constraint values
    computed from each row and its objective vector, or [None] when the
    problem has no constraint. *)
Theorem X1_fixed_arity_evaluate
        (objectives : list ScalarObjective) (variables : list Variable_)
        (constraints : option (list ScalarConstraint)) (nadir ideal : option ndarray)
        (p : ScalarMOProblem.t) (batch : array2 Q) :
  ScalarMOProblem.init objectives variables constraints nadir ideal = OK p ->
  n_cols batch = length variables ->
  exists (M : array2 Q) (cv : option (array2 Q)),
    fst (ScalarMOProblem.evaluate p (D2 batch)) = OK (M, cv)
    /\ n_cols M = length objectives
    /\ rows M = map (fun x => map (fun o => so_evaluate o x) objectives) (rows batch)
    /\ (cv = None <-> ScalarMOProblem.n_of_constraints p = 0)
    /\ forall cm, cv = Some cm ->
         exists cs, constraints = Some cs
                    /\ n_cols cm = length cs
                    /\ rows cm
                       = zip_with (fun x o => map (fun con => sc_evaluate con x o) cs)
                                  (rows batch) (rows M).
Proof.
  intros Hinit Hcols.
  pose proof (ScalarMO_evaluate_spec _ _ _ _ _ _ _ Hinit Hcols) as H.
  cbv zeta in H.
  apply ScalarMO_init_fields in Hinit.
  eexists. eexists. split; [exact H|].
  split; [reflexivity|]. split; [reflexivity|]. split.
  - rewrite Hinit. cbn [ScalarMOProblem.n_of_constraints].
    apply constraint_matrix_None.
  - intros cm Hcm. cbn [rows]. exact (constraint_matrix_Some _ _ _ _ Hcm).
Qed.

(** X1 at a batch outside the bounds of the variables. *)
Lemma X1_witness :
  exists (M : array2 Q) (cv : option (array2 Q)),
    fst (ScalarMOProblem.evaluate constrained_scalar_problem (D2 outside_batch))
    = OK (M, cv)
    /\ n_cols M = length [sum_objective]
    /\ rows M = map (fun x => map (fun o => so_evaluate o x) [sum_objective])
                    (rows outside_batch)
    /\ (cv = None <-> ScalarMOProblem.n_of_constraints constrained_scalar_problem = 0)
    /\ forall cm, cv = Some cm ->
         exists cs, Some [sum_constraint] = Some cs
                    /\ n_cols cm = length cs
                    /\ rows cm
                       = zip_with (fun x o => map (fun con => sc_evaluate con x o) cs)
                                  (rows outside_batch) (rows M).
Proof.
  apply (X1_fixed_arity_evaluate [sum_objective] two_variables (Some [sum_constraint])
                                 None None constrained_scalar_problem outside_batch).
  - reflexivity.
  - reflexivity.
Defined.



Lemma MO_loop_on_scalar_objectives (objs : list ScalarObjective) :
  forall (c : nat) (dv ov : array2 Q),
    MOProblem.objectives_loop (map Scalar objs) c dv ov
    = ScalarMOProblem.objectives_loop objs c dv ov.
Proof.
  induction objs as [|o objs IH]; intros c dv ov; [reflexivity|].
  cbn [map MOProblem.objectives_loop ScalarMOProblem.objectives_loop
       number_of_objectives evaluated Nat.eqb].
  destruct (set_column ov c _) as [ov'|e]; cbn [bind]; [|reflexivity].
  rewrite Nat.add_1_r. apply IH.
Qed.

Lemma sum_of_arities_scalar (objs : list ScalarObjective) :
  MOProblem.sum_of_arities (map Scalar objs) = length objs.
Proof.
  induction objs as [|o objs IH]; [reflexivity|].
  cbn [map]. rewrite sum_of_arities_cons, IH. reflexivity.
Qed.

(** X3.  A problem whose objectives are all scalar, built once as an
    [MOProblem] and once as a [ScalarMOProblem]: on a batch of the right
    width with every entry within bounds the two [evaluate] methods
    return the same outcome; with an entry outside its bounds the
    [MOProblem] raises one of its two bounds errors while the
    [ScalarMOProblem] returns a result. *)
Theorem X3_all_scalar_objectives_agree
        (objectives : list ScalarObjective) (variables : list Variable_)
        (constraints : option (list ScalarConstraint)) (nadir ideal : option ndarray)
        (mixed : MOProblem.t) (fixed : ScalarMOProblem.t) (batch : array2 Q) :
  MOProblem.init (map Scalar objectives) variables constraints nadir ideal = OK mixed ->
  ScalarMOProblem.init objectives variables constraints nadir ideal = OK fixed ->
  correctly_sized variables batch ->
  (Forall (within_bounds variables) (rows batch) ->
   fst (MOProblem.evaluate mixed (D2 batch))
   = fst (ScalarMOProblem.evaluate fixed (D2 batch)))
  /\ (Exists (below_lower variables) (rows batch)
      \/ Exists (above_upper variables) (rows batch) ->
      is_OK (fst (ScalarMOProblem.evaluate fixed (D2 batch))) = true
      /\ exists e, fst (MOProblem.evaluate mixed (D2 batch)) = Raise e
                   /\ bounds_error e).
Proof.
  intros Hm Hf Hsized.
  pose proof (MO_init_fields _ _ _ _ _ _ Hm) as Em.
  pose proof (ScalarMO_init_fields _ _ _ _ _ _ Hf) as Ef.
  assert (Hvars : MOProblem.variables mixed = variables) by (rewrite Em; reflexivity).
  rewrite <- Hvars in Hsized.
  destruct (check_bounds_spec mixed batch Hsized) as (Hlow & Hup & Hok).
  rewrite Hvars in *. split.
  - intros Hin. destruct (within_not_outside _ _ Hin) as [Nb Na].
    unfold MOProblem.evaluate, MOProblem.evaluate_result,
      ScalarMOProblem.evaluate, ScalarMOProblem.evaluate_result.
    cbn [fst promote]. rewrite (Hok Nb Na). cbn [bind].
    unfold MOProblem.evaluate_checked. rewrite Em, Ef.
    cbn [MOProblem.n_of_variables MOProblem.n_of_objectives MOProblem.n_of_constraints
         MOProblem.objectives MOProblem.constraints
         ScalarMOProblem.n_of_variables ScalarMOProblem.n_of_objectives
         ScalarMOProblem.n_of_constraints ScalarMOProblem.objectives
         ScalarMOProblem.constraints].
    rewrite sum_of_arities_scalar, MO_loop_on_scalar_objectives. reflexivity.
  - intros Hout. split.
    + rewrite (ScalarMO_evaluate_spec _ _ _ _ _ _ _ Hf (proj2 Hsized)). reflexivity.
    + unfold MOProblem.evaluate, MOProblem.evaluate_result. cbn [fst promote].
      destruct (outside_dec variables (rows batch)) as [B|N].
      * rewrite (Hlow B). eexists. split; [reflexivity | left; reflexivity].
      * destruct Hout as [B|A]; [contradiction|].
        rewrite (Hup N A). eexists. split; [reflexivity | right; reflexivity].
Qed.

(** X3 at [f1(x) = x0 + x1] with one constraint and a batch within
    bounds. *)
Lemma X3_witness :
  (Forall (within_bounds two_variables) (rows example_batch) ->
   fst (MOProblem.evaluate constrained_mixed_problem (D2 example_batch))
   = fst (ScalarMOProblem.evaluate constrained_scalar_problem (D2 example_batch)))
  /\ (Exists (below_lower two_variables) (rows example_batch)
      \/ Exists (above_upper two_variables) (rows example_batch) ->
      is_OK (fst (ScalarMOProblem.evaluate constrained_scalar_problem (D2 example_batch)))
      = true
      /\ exists e, fst (MOProblem.evaluate constrained_mixed_problem (D2 example_batch))
                   = Raise e
                   /\ bounds_error e).
Proof.
  apply (X3_all_scalar_objectives_agree [sum_objective] two_variables
           (Some [sum_constraint]) None None
           constrained_mixed_problem constrained_scalar_problem example_batch).
  - reflexivity.
  - reflexivity.
  - unfold correctly_sized, rectangular. simpl. split; [repeat constructor | reflexivity].
Defined.

(** ** What the constructors store and report *)

Lemma sum_of_arities_ge_length (objectives : list Objective) :
  Forall well_formed objectives ->
  length objectives <= MOProblem.sum_of_arities objectives.
Proof.
  induction 1 as [|o objs Ho _ IH]; [apply Nat.le_refl|].
  rewrite sum_of_arities_cons. simpl length.
  destruct o as [s|v]; simpl in *; [lia|]. destruct Ho as [Hk _]. lia.
Qed.

(** X4.  An [MOProblem] returned by the constructor holds the lists it
    was given, [n_of_variables] is the number of variables,
    [n_of_objectives] the sum of the objectives' arities (at least the
    number of objectives when these are well formed, and exactly that
    number when all are scalar), [n_of_constraints] the number of
    constraints, 0 for [None]; [decision_vectors] and
    [objective_vectors] are [None]. *)
Theorem X4_constructor_counts
        (objectives : list Objective) (variables : list Variable_)
        (constraints : option (list ScalarConstraint)) (nadir ideal : option ndarray)
        (p : MOProblem.t) :
  MOProblem.init objectives variables constraints nadir ideal = OK p ->
  MOProblem.objectives p = objectives
  /\ MOProblem.variables p = variables
  /\ MOProblem.constraints p = constraints
  /\ MOProblem.n_of_variables p = length variables
  /\ MOProblem.n_of_objectives p
     = list_sum (map number_of_objectives objectives)
  /\ (Forall well_formed objectives -> length objectives <= MOProblem.n_of_objectives p)
  /\ ((forall o, In o objectives -> exists s, o = Scalar s) ->
      MOProblem.n_of_objectives p = length objectives)
  /\ (constraints = None -> MOProblem.n_of_constraints p = 0)
  /\ (forall cs, constraints = Some cs -> MOProblem.n_of_constraints p = length cs)
  /\ MOProblem.decision_vectors p = None
  /\ MOProblem.objective_vectors p = None.
Proof.
  intros Hinit. apply MO_init_fields in Hinit. subst p.
  cbn [MOProblem.objectives MOProblem.variables MOProblem.constraints
       MOProblem.n_of_variables MOProblem.n_of_objectives MOProblem.n_of_constraints].
  assert (Hsum : MOProblem.sum_of_arities objectives
                 = list_sum (map number_of_objectives objectives)).
  { induction objectives as [|o objs IH]; [reflexivity|].
    rewrite sum_of_arities_cons, IH. reflexivity. }
  repeat split.
  - exact Hsum.
  - apply sum_of_arities_ge_length.
  - intros Hall. clear Hsum. induction objectives as [|o objs IH]; [reflexivity|].
    rewrite sum_of_arities_cons, IH by (intros o' Ho'; apply Hall; right; exact Ho').
    destruct (Hall o (or_introl eq_refl)) as [s ->]. reflexivity.
  - intros ->. reflexivity.
  - intros cs ->. reflexivity.
Qed.

(** X4 at the objectives of arities 1, 3 and 1. *)
Lemma X4_witness :
  MOProblem.objectives mixed_problem = mixed_objectives
  /\ MOProblem.variables mixed_problem = two_variables
  /\ MOProblem.constraints mixed_problem = Some [sum_constraint]
  /\ MOProblem.n_of_variables mixed_problem = length two_variables
  /\ MOProblem.n_of_objectives mixed_problem
     = list_sum (map number_of_objectives mixed_objectives)
  /\ (Forall well_formed mixed_objectives ->
      length mixed_objectives <= MOProblem.n_of_objectives mixed_problem)
  /\ ((forall o, In o mixed_objectives -> exists s, o = Scalar s) ->
      MOProblem.n_of_objectives mixed_problem = length mixed_objectives)
  /\ (Some [sum_constraint] = None -> MOProblem.n_of_constraints mixed_problem = 0)
  /\ (forall cs, Some [sum_constraint] = Some cs ->
                 MOProblem.n_of_constraints mixed_problem = length cs)
  /\ MOProblem.decision_vectors mixed_problem = None
  /\ MOProblem.objective_vectors mixed_problem = None.
Proof.
  apply (X4_constructor_counts mixed_objectives two_variables (Some [sum_constraint])
                               None None mixed_problem).
  reflexivity.
Defined.

Lemma fixed_init_succeeds (objectives : list ScalarObjective) (variables : list Variable_)
      (constraints : option (list ScalarConstraint)) (nadir ideal : option ndarray) :
  (forall a, nadir = Some a -> len a = length objectives) ->
  (forall a, ideal = Some a -> len a = length objectives) ->
  exists p, ScalarMOProblem.init objectives variables constraints nadir ideal = OK p.
Proof.
  intros Hn Hi. unfold ScalarMOProblem.init.
  rewrite (check_length_OK _ _ _ Hn), (check_length_OK _ _ _ Hi). cbn [bind].
  destruct nadir as [a|], ideal as [b|]; cbn [bind]; eauto.
  rewrite (Hn a eq_refl), (Hi b eq_refl), Nat.eqb_refl. cbn [negb bind]. eauto.
Qed.

Lemma nadir_ideal_msg_is_no_length_msg (l n l' m' : nat) :
  nadir_length_msg l n <> nadir_ideal_msg l' m'
  /\ ideal_length_msg l n <> nadir_ideal_msg l' m'.
Proof.
  unfold nadir_length_msg, ideal_length_msg, nadir_ideal_msg.
  split; simpl; discriminate.
Qed.

(** X5.  The [ProblemError] of both constructors tells which vector is
    wrong and the two lengths: a nadir of the wrong length is reported
    whatever the ideal is, an ideal of the wrong length is reported when
    the nadir fits.  The third message of [ScalarMOProblem.__init__],
    for a nadir and an ideal of different lengths, is never raised. *)
Theorem X5_init_error_names_the_vector
        (scalar_objectives : list ScalarObjective) (objectives : list Objective)
        (variables : list Variable_) (constraints : option (list ScalarConstraint))
        (nadir ideal : option ndarray) :
  let fixed := ScalarMOProblem.init scalar_objectives variables constraints nadir ideal in
  let mixed := MOProblem.init objectives variables constraints nadir ideal in
  let n := length scalar_objectives in
  let m := MOProblem.sum_of_arities objectives in
  (forall a, nadir = Some a -> len a <> n ->
             fixed = Raise (ProblemError (nadir_length_msg (len a) n)))
  /\ (forall b, (forall a, nadir = Some a -> len a = n) ->
                ideal = Some b -> len b <> n ->
                fixed = Raise (ProblemError (ideal_length_msg (len b) n)))
  /\ (forall l k, fixed <> Raise (ProblemError (nadir_ideal_msg l k)))
  /\ (forall a, nadir = Some a -> len a <> m ->
                mixed = Raise (ProblemError (nadir_length_msg (len a) m)))
  /\ (forall b, (forall a, nadir = Some a -> len a = m) ->
                ideal = Some b -> len b <> m ->
                mixed = Raise (ProblemError (ideal_length_msg (len b) m))).
Proof.
  cbv zeta.
  assert (Hn : forall a, nadir = Some a -> len a <> length scalar_objectives ->
             ScalarMOProblem.init scalar_objectives variables constraints nadir ideal
             = Raise (ProblemError (nadir_length_msg (len a) (length scalar_objectives)))).
  { intros a E H. unfold ScalarMOProblem.init.
    rewrite (check_length_Raise _ _ _ _ E H). reflexivity. }
  assert (Hi : forall b, (forall a, nadir = Some a -> len a = length scalar_objectives) ->
             ideal = Some b -> len b <> length scalar_objectives ->
             ScalarMOProblem.init scalar_objectives variables constraints nadir ideal
             = Raise (ProblemError (ideal_length_msg (len b) (length scalar_objectives)))).
  { intros b Hfit E H. unfold ScalarMOProblem.init.
    rewrite (check_length_OK _ _ _ Hfit), (check_length_Raise _ _ _ _ E H). reflexivity. }
  split; [exact Hn|]. split; [exact Hi|]. split; [|split].
  - intros l k E.
    destruct (mismatch_dec (length scalar_objectives) nadir ideal)
      as [[(a & Ea & H) | (Hfit & b & Eb & H)] | (Hfitn & Hfiti)].
    + rewrite (Hn a Ea H) in E.
      apply (proj1 (nadir_ideal_msg_is_no_length_msg
                      (len a) (length scalar_objectives) l k)).
      congruence.
    + rewrite (Hi b Hfit Eb H) in E.
      apply (proj2 (nadir_ideal_msg_is_no_length_msg
                      (len b) (length scalar_objectives) l k)).
      congruence.
    + destruct (fixed_init_succeeds scalar_objectives variables constraints nadir ideal
                                  Hfitn Hfiti) as [p Hp].
      rewrite Hp in E. discriminate.
  - intros a E H. unfold MOProblem.init.
    rewrite (check_length_Raise _ _ _ _ E H). reflexivity.
  - intros b Hfit E H. unfold MOProblem.init.
    rewrite (check_length_OK _ _ _ Hfit), (check_length_Raise _ _ _ _ E H). reflexivity.
Qed.

(** ** The bounds of the variables *)

Lemma set_row_pair (rs : list (list Q)) (ind : nat) (lo hi : Q) :
  ind < length rs ->
  set_row (Array2 2 rs) ind [lo; hi]
  = OK (Array2 2 (firstn ind rs ++ [lo; hi] :: skipn (S ind) rs)).
Proof.
  intros H. unfold set_row, n_rows. cbn [rows n_cols length].
  apply Nat.leb_gt in H. rewrite H. reflexivity.
Qed.

Lemma bounds_loop_spec (variables : list Variable_) :
  forall (ind : nat) (rs : list (list Q)),
    ind + length variables <= length rs ->
    bounds_loop variables ind (Array2 2 rs)
    = OK (Array2 2 (firstn ind rs ++ map bounds_row variables
                           ++ skipn (ind + length variables) rs)).
Proof.
  induction variables as [|var variables IH]; intros ind rs H.
  - simpl. rewrite Nat.add_0_r, firstn_skipn. reflexivity.
  - simpl length in H. cbn [bounds_loop].
    rewrite set_row_pair by lia. cbn [bind].
    set (A := firstn ind rs). set (B := skipn (S ind) rs).
    assert (HA : length A = ind) by (unfold A; rewrite length_firstn; lia).
    assert (HB : length B = length rs - S ind) by (unfold B; apply length_skipn).
    rewrite IH by (rewrite length_app; simpl; lia).
    do 2 f_equal.
    assert (E1 : firstn (S ind) (A ++ bounds_row var :: B) = A ++ [bounds_row var]).
    { rewrite firstn_app, HA, firstn_all2 by lia.
      replace (S ind - ind) with 1 by lia. reflexivity. }
    assert (E2 : skipn (S ind + length variables) (A ++ bounds_row var :: B)
                 = skipn (ind + S (length variables)) rs).
    { rewrite skipn_app, HA, skipn_all2 by lia.
      replace (S ind + length variables - ind) with (S (length variables)) by lia.
      cbn [app skipn]. unfold B. rewrite skipn_skipn. f_equal. lia. }
    unfold bounds_row at 1 in E1. unfold bounds_row at 1 in E2.
    rewrite E1, E2. cbn [map length]. rewrite <- app_assoc. reflexivity.
Qed.

Lemma bounds_of_variables (variables : list Variable_) :
  bounds_loop variables 0 (Np.empty (length variables) 2)
  = OK (Array2 2 (map bounds_row variables)).
Proof.
  unfold Np.empty. rewrite bounds_loop_spec by (rewrite repeat_length; lia).
  cbn [firstn app]. rewrite skipn_all2 by (rewrite repeat_length; lia).
  rewrite app_nil_r. reflexivity.
Qed.

(** X6.  [get_variable_bounds] of a [ScalarMOProblem] or an [MOProblem]
    returned by the constructor is the table with one row
    [(lower, upper)] per variable in definition order: its first column
    is [get_variable_lower_bounds], its second column
    [get_variable_upper_bounds], and it has as many rows as
    [get_variable_names] has names. *)
Theorem X6_get_variable_bounds
        (scalar_objectives : list ScalarObjective) (objectives : list Objective)
        (variables : list Variable_) (constraints : option (list ScalarConstraint))
        (nadir ideal : option ndarray)
        (fixed : ScalarMOProblem.t) (mixed : MOProblem.t) :
  ScalarMOProblem.init scalar_objectives variables constraints nadir ideal = OK fixed ->
  MOProblem.init objectives variables constraints nadir ideal = OK mixed ->
  exists B : array2 Q,
    ScalarMOProblem.get_variable_bounds fixed = OK B
    /\ MOProblem.get_variable_bounds mixed = OK B
    /\ n_cols B = 2
    /\ rows B = map (fun var => [fst (get_bounds var); snd (get_bounds var)]) variables
    /\ column 0 B = ScalarMOProblem.get_variable_lower_bounds fixed
    /\ column 1 B = ScalarMOProblem.get_variable_upper_bounds fixed
    /\ column 0 B = MOProblem.get_variable_lower_bounds mixed
    /\ column 1 B = MOProblem.get_variable_upper_bounds mixed
    /\ n_rows B = length (ScalarMOProblem.get_variable_names fixed)
    /\ n_rows B = length (MOProblem.get_variable_names mixed).
Proof.
  intros Hf Hm.
  apply ScalarMO_init_fields in Hf. apply MO_init_fields in Hm. subst fixed mixed.
  exists (Array2 2 (map bounds_row variables)).
  unfold ScalarMOProblem.get_variable_bounds, MOProblem.get_variable_bounds,
    ScalarMOProblem.get_variable_lower_bounds, ScalarMOProblem.get_variable_upper_bounds,
    MOProblem.get_variable_lower_bounds, MOProblem.get_variable_upper_bounds,
    ScalarMOProblem.get_variable_names, MOProblem.get_variable_names, column, n_rows.
  cbn [ScalarMOProblem.variables ScalarMOProblem.n_of_variables
       MOProblem.variables MOProblem.n_of_variables rows n_cols].
  rewrite bounds_of_variables, !map_map, !length_map.
  repeat split.
Qed.

(** X6 at two variables with bounds [(0, 1)]. *)
Lemma X6_witness :
  exists B : array2 Q,
    ScalarMOProblem.get_variable_bounds constrained_scalar_problem = OK B
    /\ MOProblem.get_variable_bounds mixed_problem = OK B
    /\ n_cols B = 2
    /\ rows B = map (fun var => [fst (get_bounds var); snd (get_bounds var)])
                    two_variables
    /\ column 0 B = ScalarMOProblem.get_variable_lower_bounds constrained_scalar_problem
    /\ column 1 B = ScalarMOProblem.get_variable_upper_bounds constrained_scalar_problem
    /\ column 0 B = MOProblem.get_variable_lower_bounds mixed_problem
    /\ column 1 B = MOProblem.get_variable_upper_bounds mixed_problem
    /\ n_rows B = length (ScalarMOProblem.get_variable_names constrained_scalar_problem)
    /\ n_rows B = length (MOProblem.get_variable_names mixed_problem).
Proof.
  apply (X6_get_variable_bounds [sum_objective] mixed_objectives two_variables
           (Some [sum_constraint]) None None constrained_scalar_problem mixed_problem).
  - reflexivity.
  - reflexivity.
Defined.

(** ** Names and columns *)

Lemma names_length (objs : list Objective) :
  Forall names_fit objs ->
  length (flat_map list_of_name objs) = MOProblem.sum_of_arities objs.
Proof.
  induction 1 as [|o objs Ho _ IH]; [reflexivity|].
  cbn [flat_map]. rewrite length_app, IH, sum_of_arities_cons, Ho. reflexivity.
Qed.

(** X7.  When every objective of an [MOProblem] has as many names as
    outputs (a vector objective one name per output, a scalar objective
    a name of one character), [get_objective_names] has one name per
    column of the objective matrix, and the names of each objective
    stand at the columns of its outputs: they start at the sum of the
    arities of the objectives before it. *)
Theorem X7_names_align_with_columns (p : MOProblem.t) :
  Forall names_fit (MOProblem.objectives p) ->
  length (MOProblem.get_objective_names p)
  = MOProblem.sum_of_arities (MOProblem.objectives p)
  /\ forall (before after : list Objective) (objective : Objective),
      MOProblem.objectives p = before ++ objective :: after ->
      firstn (number_of_objectives objective)
             (skipn (MOProblem.sum_of_arities before) (MOProblem.get_objective_names p))
      = list_of_name objective.
Proof.
  intros Hfit. rewrite MO_get_objective_names_flat. split.
  - apply names_length, Hfit.
  - intros before after o E. rewrite E in *.
    apply Forall_app in Hfit as [Hb Ho]. apply Forall_cons_iff in Ho as [Ho _].
    rewrite flat_map_app, <- (names_length before Hb).
    rewrite skipn_app, skipn_all, Nat.sub_diag. cbn [skipn app flat_map].
    rewrite <- Ho, firstn_app, firstn_all, Nat.sub_diag. cbn [firstn].
    apply app_nil_r.
Qed.

(** X7 at a vector objective of three names followed by a scalar
    objective named [f]. *)
Lemma X7_witness :
  length (MOProblem.get_objective_names named_problem)
  = MOProblem.sum_of_arities (MOProblem.objectives named_problem)
  /\ forall (before after : list Objective) (objective : Objective),
      MOProblem.objectives named_problem = before ++ objective :: after ->
      firstn (number_of_objectives objective)
             (skipn (MOProblem.sum_of_arities before)
                    (MOProblem.get_objective_names named_problem))
      = list_of_name objective.
Proof.
  apply (X7_names_align_with_columns named_problem).
  repeat constructor.
Defined.

(** ** Construction of the dataset-backed problem *)


Lemma ScalarData_init_counts (d o : array2 Q) (p : ScalarDataProblem.t) :
  ScalarDataProblem.init (D2 d) (D2 o) = OK p ->
  ScalarDataProblem.n_of_variables p = n_cols d
  /\ ScalarDataProblem.n_of_objectives p = n_cols o
  /\ ScalarDataProblem.epsilon p = (1 # 1000000)%Q
  /\ ScalarDataProblem.decision_vectors p = Some (D2 d).
Proof.
  unfold ScalarDataProblem.init.
  cbn [ScalarDataProblem.shape_1 shape bind ScalarDataProblem.reduce_objectives].
  destruct (max_axis0 o); [|discriminate]. cbn [bind].
  destruct (min_axis0 o); [|discriminate]. cbn [bind].
  intros [= <-]. repeat split.
Qed.

Lemma column_extrema (a : array2 Q) :
  rectangular a -> rows a <> [] ->
  exists lo hi, min_axis0 a = OK lo /\ max_axis0 a = OK hi
                /\ columnwise is_minimum lo a /\ columnwise is_maximum hi a.
Proof.
  intros Hrect Hne.
  destruct (reduce_axis0_columnwise maximum "maximum" is_maximum a)
    as (hi & Eh & Hhi); try assumption.
  { intros l x. unfold is_maximum.
    apply (fold_extremum (fun u v => (u <= v)%Q) maximum Qle_refl Qle_trans maximum_cases). }
  destruct (reduce_axis0_columnwise minimum "minimum" is_minimum a)
    as (lo & El & Hlo); try assumption.
  { intros l x. unfold is_minimum.
    apply (fold_extremum (fun u v => (v <= u)%Q) minimum Qle_refl).
    - intros u v w H1 H2. exact (Qle_trans _ _ _ H2 H1).
    - exact minimum_cases. }
  exists lo, hi. split; [exact El|]. split; [exact Eh|]. split; assumption.
Qed.

Lemma in_column (a : array2 Q) (row : list Q) (j : nat) :
  In row (rows a) -> In (nth j row 0%Q) (column j a).
Proof.
  intros H. unfold column. apply (in_map (fun r => nth j r 0%Q)), H.
Qed.

(** X9.  In a [ScalarDataProblem] built from an objective matrix with at
    least one row, [ideal] and [nadir] have one entry per objective and
    every stored objective vector lies between them, entry by entry:
    [ideal[j] <= objective_vectors[i][j] <= nadir[j]]. *)
Theorem X9_objectives_between_ideal_and_nadir
        (decisions objectives : array2 Q) (p : ScalarDataProblem.t) :
  rectangular objectives -> rows objectives <> [] ->
  ScalarDataProblem.init (D2 decisions) (D2 objectives) = OK p ->
  exists nadir ideal : list Q,
    ScalarDataProblem.nadir p = Some (D1 nadir)
    /\ ScalarDataProblem.ideal p = Some (D1 ideal)
    /\ length nadir = ScalarDataProblem.n_of_objectives p
    /\ length ideal = ScalarDataProblem.n_of_objectives p
    /\ forall (row : list Q) (j : nat),
        In row (rows objectives) -> j < ScalarDataProblem.n_of_objectives p ->
        (nth j ideal 0 <= nth j row 0)%Q /\ (nth j row 0 <= nth j nadir 0)%Q.
Proof.
  intros Hrect Hne Hinit.
  destruct (ScalarData_init_fields _ _ _ Hinit) as (_ & _ & _ & Hn & Hi).
  destruct (ScalarData_init_counts _ _ _ Hinit) as (_ & Hcount & _).
  destruct (column_extrema objectives Hrect Hne)
    as (ideal & nadir & El & Eh & [Hll Hlo] & [Hlh Hhi]).
  cbn [ScalarDataProblem.reduce_objectives] in Hn, Hi.
  rewrite Eh in Hn. rewrite El in Hi. cbn [bind] in Hn, Hi.
  exists nadir, ideal. rewrite Hcount.
  split; [exact Hn|]. split; [exact Hi|]. split; [exact Hlh|]. split; [exact Hll|].
  intros row j Hrow Hj. pose proof (in_column objectives row j Hrow) as Hin.
  destruct (Hlo j Hj) as [_ Hmin]. destruct (Hhi j Hj) as [_ Hmax].
  rewrite Forall_forall in Hmin, Hmax. split; [apply Hmin | apply Hmax]; exact Hin.
Qed.

(** X9 at a dataset of three solutions. *)
Lemma X9_witness :
  exists nadir ideal : list Q,
    ScalarDataProblem.nadir data_problem = Some (D1 nadir)
    /\ ScalarDataProblem.ideal data_problem = Some (D1 ideal)
    /\ length nadir = ScalarDataProblem.n_of_objectives data_problem
    /\ length ideal = ScalarDataProblem.n_of_objectives data_problem
    /\ forall (row : list Q) (j : nat),
        In row (rows data_objectives) ->
        j < ScalarDataProblem.n_of_objectives data_problem ->
        (nth j ideal 0 <= nth j row 0)%Q /\ (nth j row 0 <= nth j nadir 0)%Q.
Proof.
  apply (X9_objectives_between_ideal_and_nadir data_decisions data_objectives
                                               data_problem).
  - repeat constructor.
  - discriminate.
  - reflexivity.
Defined.

(** ** The bounds reported by the dataset-backed problem *)




(** ** Nearest-neighbour evaluation *)



Lemma broadcast_dim_one (n : nat) : broadcast_dim n 1 = Some n.
Proof.
  unfold broadcast_dim. destruct (Nat.eqb_spec n 1) as [->|H]; [reflexivity|].
  reflexivity.
Qed.

Lemma stretch_singleton {A} (n : nat) (x : A) : stretch n [x] = repeat x n.
Proof.
  unfold stretch. cbn [length]. destruct (Nat.eqb_spec 1 n) as [<-|H]; reflexivity.
Qed.

(** A batch combined with a single row that broadcasts against its
    width. *)
Lemma elementwise_row_general {C} (f : Q -> Q -> C) (a : array2 Q) (v : list Q) (c : nat) :
  broadcast_dim (n_cols a) (length v) = Some c ->
  elementwise f a (reshape_row v)
  = OK (Array2 c (map (fun ra => zip_with f (stretch c ra) (stretch c v)) (rows a))).
Proof.
  intros Hc. unfold elementwise, reshape_row. cbn [n_cols rows].
  unfold n_rows at 2. cbn [rows length].
  rewrite broadcast_dim_one, Hc. do 2 f_equal.
  unfold n_rows.
  rewrite stretch_singleton, (stretch_same (length (rows a)) (rows a) eq_refl).
  apply (zip_with_repeat_r (fun ra rb => zip_with f (stretch c ra) (stretch c rb))).
Qed.

(** X12.  [ScalarDataProblem.evaluate] does not check the width of the
    query itself.  A query whose width differs from the stored width
    raises NumPy's broadcasting [ValueError] when neither width is 1; a
    query of one entry is accepted and compared as the vector that
    repeats this entry at every variable. *)
Theorem X12_data_query_width
        (decisions objectives : array2 Q) (p : ScalarDataProblem.t) :
  ScalarDataProblem.init (D2 decisions) (D2 objectives) = OK p ->
  (forall q : list Q,
      length q <> n_cols decisions -> length q <> 1 -> n_cols decisions <> 1 ->
      fst (ScalarDataProblem.evaluate p (D1 q))
      = Raise (ValueError "operands could not be broadcast together"))
  /\ (forall c : Q,
         fst (ScalarDataProblem.evaluate p (D1 [c]))
         = fst (ScalarDataProblem.evaluate p (D1 (repeat c (n_cols decisions))))).
Proof.
  intros Hinit.
  destruct (ScalarData_init_fields _ _ _ Hinit) as (Hdec & Hobj & Hmodel & _).
  unfold ScalarDataProblem.evaluate. cbn [fst].
  unfold ScalarDataProblem.evaluate_result. rewrite Hmodel, Hdec, Hobj. cbn [negb].
  unfold subtract. split.
  - intros q H1 H2 H3. unfold elementwise, reshape_row. cbn [n_cols rows].
    assert (E : broadcast_dim (n_cols decisions) (length q) = None).
    { unfold broadcast_dim.
      destruct (Nat.eqb_spec (n_cols decisions) (length q)); [congruence|].
      destruct (Nat.eqb_spec (n_cols decisions) 1); [congruence|].
      destruct (Nat.eqb_spec (length q) 1); [congruence|]. reflexivity. }
    rewrite E. clear E. destruct (broadcast_dim (n_rows decisions) _); reflexivity.
  - intros c.
    rewrite (elementwise_row_general Qminus decisions [c] (n_cols decisions))
      by apply broadcast_dim_one.
    rewrite (elementwise_row_general Qminus decisions (repeat c (n_cols decisions))
                                     (n_cols decisions)).
    + rewrite stretch_singleton, (stretch_same _ _ (repeat_length c _)). reflexivity.
    + rewrite repeat_length. unfold broadcast_dim. rewrite Nat.eqb_refl. reflexivity.
Qed.

(** X12 at a dataset of two variables. *)
Lemma X12_witness :
  (forall q : list Q,
      length q <> n_cols data_decisions -> length q <> 1 -> n_cols data_decisions <> 1 ->
      fst (ScalarDataProblem.evaluate data_problem (D1 q))
      = Raise (ValueError "operands could not be broadcast together"))
  /\ (forall c : Q,
         fst (ScalarDataProblem.evaluate data_problem (D1 [c]))
         = fst (ScalarDataProblem.evaluate data_problem
                  (D1 (repeat c (n_cols data_decisions))))).
Proof.
  apply (X12_data_query_width data_decisions data_objectives data_problem).
  reflexivity.
Defined.

(** ** A batch of the wrong width *)

Lemma elementwise_raise {A B C} (f : A -> B -> C) (a : array2 A) (b : array2 B) e :
  elementwise f a b = Raise e -> e = broadcast_error.
Proof.
  unfold elementwise.
  destruct (broadcast_dim (n_rows a) (n_rows b)), (broadcast_dim (n_cols a) (n_cols b));
    try discriminate; intros [= <-]; reflexivity.
Qed.

Lemma check_bounds_raise (p : MOProblem.t) (batch : array2 Q) e :
  MOProblem.check_bounds p batch = Raise e -> e = broadcast_error \/ bounds_error e.
Proof.
  unfold MOProblem.check_bounds.
  destruct (elementwise (fun l x => Qltb x l) _ batch) as [below|e1] eqn:E1;
    cbn [bind].
  - destruct (Np.any below).
    + intros [= <-]. right; left; reflexivity.
    + destruct (elementwise (fun u x => Qltb u x) _ batch) as [above|e2] eqn:E2;
        cbn [bind].
      * destruct (Np.any above); [|discriminate].
        intros [= <-]. right; right; reflexivity.
      * intros [= <-]. left. exact (elementwise_raise _ _ _ _ E2).
  - intros [= <-]. left. exact (elementwise_raise _ _ _ _ E1).
Qed.

(** X13.  A batch (or a single vector) whose width differs from
    [n_of_variables] is never evaluated.  [ScalarMOProblem.evaluate]
    raises the [ProblemError] that gives the width of the input and the
    number of variables.  [MOProblem.evaluate] raises that
    [ProblemError], or a [ValueError] of the bounds comparison that
    comes first: NumPy's broadcasting error or one of the two bounds
    errors. *)
Theorem X13_wrong_width_is_never_evaluated
        (fixed : ScalarMOProblem.t) (mixed : MOProblem.t) (dv : ndarray) :
  n_cols (promote dv) <> ScalarMOProblem.n_of_variables fixed ->
  n_cols (promote dv) <> MOProblem.n_of_variables mixed ->
  fst (ScalarMOProblem.evaluate fixed dv)
  = Raise (ProblemError (input_width_msg (n_cols (promote dv))
                                         (ScalarMOProblem.n_of_variables fixed)))
  /\ exists e, fst (MOProblem.evaluate mixed dv) = Raise e
               /\ (e = ProblemError (input_width_msg (n_cols (promote dv))
                                                     (MOProblem.n_of_variables mixed))
                   \/ e = ValueError "operands could not be broadcast together"
                   \/ bounds_error e).
Proof.
  intros Hf Hm. split; [apply ScalarMO_evaluate_width_mismatch, Hf|].
  destruct (MOProblem.check_bounds mixed (promote dv)) as [[]|e] eqn:E.
  - rewrite (MO_evaluate_width_mismatch mixed dv Hm E).
    eexists. split; [reflexivity | left; reflexivity].
  - unfold MOProblem.evaluate, MOProblem.evaluate_result. cbn [fst].
    rewrite E. cbn [bind]. exists e. split; [reflexivity|]. right.
    exact (check_bounds_raise _ _ _ E).
Qed.

(** X13 at problems of three variables and a batch of two columns. *)
Lemma X13_witness :
  fst (ScalarMOProblem.evaluate three_variable_scalar_problem (D2 narrow_batch))
  = Raise (ProblemError
             (input_width_msg (n_cols (promote (D2 narrow_batch)))
                (ScalarMOProblem.n_of_variables three_variable_scalar_problem)))
  /\ exists e,
      fst (MOProblem.evaluate (single_objective_problem three_variables) (D2 narrow_batch))
      = Raise e
      /\ (e = ProblemError
                (input_width_msg (n_cols (promote (D2 narrow_batch)))
                   (MOProblem.n_of_variables (single_objective_problem three_variables)))
          \/ e = ValueError "operands could not be broadcast together"
          \/ bounds_error e).
Proof.
  apply (X13_wrong_width_is_never_evaluated three_variable_scalar_problem
           (single_objective_problem three_variables) (D2 narrow_batch)).
  - simpl. discriminate.
  - simpl. discriminate.
Defined.

(** ** Edge cases of the nearest-neighbour lookup *)







(** The query with stored decision vector 2 of the misaligned dataset
    returns objective row 0. *)
Example misaligned_lookup :
  fst (ScalarDataProblem.evaluate misaligned_problem (D1 [1%Q; 1%Q]))
  = OK (ScalarDataProblem.Tuple1 (Row [5%Q; 1%Q])).
Proof. reflexivity. Qed.
